(** * UK_weather MCP server ([uk_mcp_server.py]): model and properties

    A shallow embedding of the four components of the server -- the weather
    code table, the location resolver, the API client and the observation
    formatter -- followed by the properties of each.

    Python values are a JSON-shaped variant, exceptions an error monad.  The
    file [stations.json] and the network are inputs of the model: the
    resolver reads a [stations_file], the client asks a [network]. *)

From Stdlib Require Import ZArith String Ascii List DecimalString DecimalPos DecimalZ.
From Stdlib Require Import Floats.SpecFloat.
From stdpp Require Import base option list strings gmap.

#[local] Set Warnings "-register-all".
#[local] Open Scope string_scope.
#[local] Open Scope Z_scope.

(** ** Python values and exceptions *)

(** What [json.load] and [response.json()] build.  A [str] is held as its
    UTF-8 text; a [dict] keeps its keys in insertion order, and a dict
    built by the [json] module has no key twice. *)
Inductive pyvalue :=
| VNone
| VBool (b : bool)
| VInt (n : Z)
| VFloat (f : spec_float)
| VStr (s : string)
| VList (items : list pyvalue)
| VDict (fields : list (string * pyvalue)).

(** The exceptions the program can meet.  [KeyError] keeps the missing key,
    the ones whose [str(e)] a handler prints or returns keep that text.
    [JSONDecodeError] and [UnicodeDecodeError] are subclasses of
    [ValueError], [FileNotFoundError] is one of [OSError], and
    [CancelledError] and [KeyboardInterrupt] are not [Exception]s. *)
Inductive exn :=
| KeyError (key : string)
| IndexError (msg : string)
| ValueError (msg : string)
| JSONDecodeError (msg : string)
| UnicodeDecodeError (msg : string)
| FileNotFoundError (msg : string)
| OSError (msg : string)
| RecursionError (msg : string)
| TypeError
| AttributeError
| OverflowError
| CancelledError
| KeyboardInterrupt.

Inductive result (A : Type) :=
| Ok (a : A)
| Raise (e : exn).
Arguments Ok {A} a.
Arguments Raise {A} e.

#[global] Instance result_ret : MRet result := @Ok.
#[global] Instance result_bind : MBind result :=
  λ A B f m, match m with Ok a => f a | Raise e => Raise e end.
#[global] Instance result_fmap : FMap result :=
  λ A B f m, match m with Ok a => Ok (f a) | Raise e => Raise e end.

(** Builtins of the interpreter that are taken as given: Unicode case
    mapping, the grammar of integer literals accepted by [int(str)] (with
    the text of the [ValueError] it raises otherwise) and [repr] of floats
    and containers. *)
Record Builtins := {
  str_lower : string → string;
  int_of_str : string → Z + string;
  repr : pyvalue → string;
}.

Definition LF : string := String "010"%char "".

Definition string_of_Z (n : Z) : string := NilZero.string_of_int (Z.to_int n).

(** [key in d] and [d[key]] on the association list of a dict. *)
Fixpoint dict_lookup (key : string) (fields : list (string * pyvalue)) : option pyvalue :=
  match fields with
  | [] => None
  | (k, v) :: rest => if String.eqb k key then Some v else dict_lookup key rest
  end.

(** [bool(v)], as [if not v] tests it. *)
Definition truthy (v : pyvalue) : bool :=
  match v with
  | VNone => false
  | VBool b => b
  | VInt n => negb (n =? 0)%Z
  | VFloat (S754_zero _) => false
  | VFloat _ => true
  | VStr s => negb (String.eqb s "")
  | VList items => match items with [] => false | _ => true end
  | VDict fields => match fields with [] => false | _ => true end
  end.

(** [obj[key]] with a [str] key. *)
Definition getitem (obj : pyvalue) (key : string) : result pyvalue :=
  match obj with
  | VDict fields =>
      match dict_lookup key fields with
      | Some v => Ok v
      | None => Raise (KeyError key)
      end
  | _ => Raise TypeError
  end.

(** [obj.get(key, default)]: only a dict has the method. *)
Definition get_method (obj : pyvalue) (key : string) (default : pyvalue) : result pyvalue :=
  match obj with
  | VDict fields => Ok (from_option id default (dict_lookup key fields))
  | _ => Raise AttributeError
  end.

Fixpoint chars (s : string) : list pyvalue :=
  match s with
  | EmptyString => []
  | String c rest => VStr (String c "") :: chars rest
  end.

(** [for x in obj]: a list yields its items, a dict its keys, a str its
    characters; anything else is not iterable.  The characters of a str
    are strs again (cut here at each byte of the text: the program indexes
    whatever it iterates over by a str key, which fails on the first of
    them either way). *)
Definition iterate (obj : pyvalue) : result (list pyvalue) :=
  match obj with
  | VList items => Ok items
  | VDict fields => Ok (map (λ kv, VStr kv.1) fields)
  | VStr s => Ok (chars s)
  | _ => Raise TypeError
  end.

(** Truncation of a finite float towards zero. *)
Definition float_trunc (negative : bool) (m : positive) (e : Z) : Z :=
  let magnitude := if (0 <=? e)%Z then Z.shiftl (Z.pos m) e else Z.shiftr (Z.pos m) (- e) in
  if negative then - magnitude else magnitude.

(** [s.replace(old, new)]. *)
Fixpoint replace_from (old new : string) (skip : nat) (s : string) : string :=
  match s with
  | EmptyString => EmptyString
  | String c rest =>
      match skip with
      | S k => replace_from old new k rest
      | O =>
          if String.prefix old s
          then new ++ replace_from old new (String.length old - 1) rest
          else String c (replace_from old new 0 rest)
      end
  end.

Fixpoint between (new s : string) : string :=
  match s with
  | EmptyString => EmptyString
  | String c rest => String c (new ++ between new rest)
  end.

Definition str_replace (old new s : string) : string :=
  match old with
  | EmptyString => new ++ between new s
  | _ => replace_from old new 0 s
  end.

(** [sub in s] on strs. *)
Fixpoint str_contains (sub s : string) : bool :=
  String.prefix sub s ||
  match s with
  | EmptyString => false
  | String _ rest => str_contains sub rest
  end.

(** [f"{n:02d}"] on an int: sign-aware zero padding to width two. *)
Definition format_02d (n : Z) : string :=
  let digits := string_of_Z (Z.abs n) in
  if (n <? 0)%Z then "-" ++ digits
  else if (String.length digits <? 2)%nat then "0" ++ digits
  else digits.

Section Runtime.
Context (py : Builtins).

(** [int(v)]. *)
Definition py_int (v : pyvalue) : result Z :=
  match v with
  | VInt n => Ok n
  | VBool b => Ok (if b then 1 else 0)
  | VFloat (S754_zero _) => Ok 0
  | VFloat (S754_finite s m e) => Ok (float_trunc s m e)
  | VFloat S754_nan => Raise (ValueError "cannot convert float NaN to integer")
  | VFloat (S754_infinity _) => Raise OverflowError
  | VStr s =>
      match int_of_str py s with
      | inl n => Ok n
      | inr msg => Raise (ValueError msg)
      end
  | VNone | VList _ | VDict _ => Raise TypeError
  end.

(** [str(v)], which is also what [f"{v}"] inserts. *)
Definition py_str (v : pyvalue) : string :=
  match v with
  | VStr s => s
  | VNone => "None"
  | VBool true => "True"
  | VBool false => "False"
  | VInt n => string_of_Z n
  | VFloat _ | VList _ | VDict _ => repr py v
  end.

(** [v.lower()] and [v.replace(old, new)]: str methods. *)
Definition lower_method (v : pyvalue) : result string :=
  match v with
  | VStr s => Ok (str_lower py s)
  | _ => Raise AttributeError
  end.

Definition replace_method (v : pyvalue) (old new : string) : result string :=
  match v with
  | VStr s => Ok (str_replace old new s)
  | _ => Raise AttributeError
  end.
End Runtime.

(** ** Weather code table *)

Inductive code_key :=
| IntKey (n : Z)
| StrKey (s : string).

Definition code_key_eqb (a b : code_key) : bool :=
  match a, b with
  | IntKey m, IntKey n => (m =? n)%Z
  | StrKey s, StrKey t => String.eqb s t
  | _, _ => false
  end.

Definition WEATHER_CODES : list (code_key * string) :=
  [ (StrKey "NA", "Not available");
    (IntKey 0, "Clear night");
    (IntKey 1, "Sunny day");
    (IntKey 2, "Partly cloudy (night)");
    (IntKey 3, "Partly cloudy (day)");
    (IntKey 4, "Not used");
    (IntKey 5, "Mist");
    (IntKey 6, "Fog");
    (IntKey 7, "Cloudy");
    (IntKey 8, "Overcast");
    (IntKey 9, "Light rain shower (night)");
    (IntKey 10, "Light rain shower (day)");
    (IntKey 11, "Drizzle");
    (IntKey 12, "Light rain");
    (IntKey 13, "Heavy rain shower (night)");
    (IntKey 14, "Heavy rain shower (day)");
    (IntKey 15, "Heavy rain");
    (IntKey 16, "Sleet shower (night)");
    (IntKey 17, "Sleet shower (day)");
    (IntKey 18, "Sleet");
    (IntKey 19, "Hail shower (night)");
    (IntKey 20, "Hail shower (day)");
    (IntKey 21, "Hail");
    (IntKey 22, "Light snow shower (night)");
    (IntKey 23, "Light snow shower (day)");
    (IntKey 24, "Light snow");
    (IntKey 25, "Heavy snow shower (night)");
    (IntKey 26, "Heavy snow shower (day)");
    (IntKey 27, "Heavy snow");
    (IntKey 28, "Thunder shower (night)");
    (IntKey 29, "Thunder shower (day)");
    (IntKey 30, "Thunder") ].

(** [WEATHER_CODES.get(key, default)]. *)
Fixpoint codes_get (table : list (code_key * string)) (key : code_key)
    (default : string) : string :=
  match table with
  | [] => default
  | (k, description) :: rest =>
      if code_key_eqb k key then description else codes_get rest key default
  end.

Section WeatherCodes.
Context (py : Builtins).

Definition get_weather_description (code : pyvalue) : result string :=
  match py_int py code with
  | Ok n => Ok (codes_get WEATHER_CODES (IntKey n) ("Unknown code: " ++ py_str py code))
  | Raise (ValueError _) | Raise (JSONDecodeError _) | Raise (UnicodeDecodeError _)
  | Raise TypeError =>
      Ok (codes_get WEATHER_CODES (StrKey (py_str py code)) ("Unknown code: " ++ py_str py code))
  | Raise e => Raise e
  end.
End WeatherCodes.

(** ** The world outside: console, directory file, network *)

Inductive event :=
| Printed (line : string)
| HttpGet (url : string) (params : gmap string pyvalue) (timeout : Z).

(** What [open("stations.json")] followed by [json.load] meets: no such
    file; a text the parser rejects with [JSONDecodeError] (the empty file
    is one); any other exception [e] of the two calls -- [OSError] for a
    file that cannot be opened, [UnicodeDecodeError] for bytes that are not
    text, [RecursionError] for a document nested too deep, [ValueError] for
    a number with too many digits; or a document. *)
Inductive stations_file :=
| FileMissing
| FileMalformed (msg : string)
| FileFault (e : exn)
| FileJson (data : pyvalue).

Definition load_stations (file : stations_file) : result pyvalue :=
  match file with
  | FileMissing =>
      Raise (FileNotFoundError "[Errno 2] No such file or directory: 'stations.json'")
  | FileMalformed msg => Raise (JSONDecodeError msg)
  | FileFault e => Raise e
  | FileJson data => Ok data
  end.

(** A response as the client reads it: [json] is what [response.json()]
    gives, the text of its decode error when the body is not JSON. *)
Record response := {
  status_code : Z;
  text : string;
  json : string + pyvalue;
}.

(** What one [client.get] meets: an [Exception] of the transport, whose
    [str] is [msg]; an exception [e] that [except Exception] does not
    catch, because it is none (the call is cancelled or interrupted) or
    because it comes from closing the client, after the [try]; or a
    response.  Building the client is taken to succeed. *)
Inductive http_outcome :=
| Fault (msg : string)
| Aborted (e : exn)
| Responded (r : response).

Definition network : Type := string → gmap string pyvalue → http_outcome.

(** What the body of the client's [try] can raise: the error of
    [raise_for_status], another [Exception] [e] with [str(e) = msg] (a
    transport fault, the decode error of [json()]), or an exception that
    no handler of the client catches. *)
Inductive client_error :=
| HTTPStatusError (r : response)
| OtherException (msg : string)
| Uncaught (e : exn).

(** [raise_for_status] lets the 2xx responses through and raises
    [HTTPStatusError] for the others. *)
Definition is_success (r : response) : bool :=
  (200 <=? status_code r)%Z && (status_code r <=? 299)%Z.

(** [d.setdefault(key, default)]: the dict afterwards. *)
Definition setdefault (key : string) (default : pyvalue)
    (d : gmap string pyvalue) : gmap string pyvalue :=
  match d !! key with
  | Some _ => d
  | None => <[key := default]> d
  end.

Definition MET_OFFICE_API_BASE : string :=
  "http://datapoint.metoffice.gov.uk/public/data/val".

(** ** Location resolver *)

Section Resolver.
Context (py : Builtins).

(** First loop: exact match, case-insensitive.  [Some v] is [return v],
    [None] a loop that ran to its end. *)
Fixpoint exact_scan (query_name : string) (locations : list pyvalue)
    : result (option pyvalue) :=
  match locations with
  | [] => Ok None
  | location :: rest =>
      name ← getitem location "name";
      lowered ← lower_method py name;
      if String.eqb lowered (str_lower py query_name)
      then Some <$> getitem location "id"
      else exact_scan query_name rest
  end.

(** Second loop: partial match, case-insensitive. *)
Fixpoint partial_scan (query_name : string) (locations : list pyvalue)
    : result (option pyvalue) :=
  match locations with
  | [] => Ok None
  | location :: rest =>
      name ← getitem location "name";
      lowered ← lower_method py name;
      if str_contains (str_lower py query_name) lowered
      then Some <$> getitem location "id"
      else partial_scan query_name rest
  end.

(** The body of the [try]. *)
Definition lookup_body (file : stations_file) (query_name : string) : result pyvalue :=
  data ← load_stations file;
  section ← get_method data "Locations" (VDict []);
  listing ← get_method section "Location" (VList []);
  locations ← iterate listing;
  exact ← exact_scan query_name locations;
  match exact with
  | Some station => Ok station
  | None =>
      partial ← partial_scan query_name locations;
      Ok (default VNone partial)
  end.

Definition lookup_station_id (file : stations_file) (query_name : string)
    : list event * result pyvalue :=
  match lookup_body file query_name with
  | Ok station => ([], Ok station)
  | Raise (FileNotFoundError msg) | Raise (JSONDecodeError msg) =>
      ([Printed ("Error reading stations.json: " ++ msg)], Ok VNone)
  | Raise (KeyError key) =>
      ([Printed ("Error reading stations.json: '" ++ key ++ "'")], Ok VNone)
  | Raise e => ([], Raise e)
  end.
End Resolver.

(** ** API client *)

Section Client.
Context (MET_OFFICE_API_KEY : string).

(** The query parameters that go out: [{}] for [None], then
    [setdefault]. *)
Definition request_params (params : option (gmap string pyvalue)) : gmap string pyvalue :=
  setdefault "key" (VStr MET_OFFICE_API_KEY) (default ∅ params).

(** The body of the [try]: the GET, [raise_for_status], [json()]. *)
Definition request_body (net : network) (url : string)
    (params : gmap string pyvalue) : client_error + pyvalue :=
  match net url params with
  | Fault msg => inl (OtherException msg)
  | Aborted e => inl (Uncaught e)
  | Responded r =>
      if is_success r then
        match json r with
        | inr data => inr data
        | inl msg => inl (OtherException msg)
        end
      else inl (HTTPStatusError r)
  end.

Definition make_met_office_request (net : network) (url : string)
    (params : option (gmap string pyvalue)) : list event * result pyvalue :=
  let params := request_params params in
  let sent := HttpGet url params 30 in
  match request_body net url params with
  | inr data => ([sent], Ok data)
  | inl (HTTPStatusError r) =>
      ([sent; Printed ("HTTP Error: " ++ string_of_Z (status_code r) ++ " - " ++ text r)],
       Ok VNone)
  | inl (OtherException msg) =>
      ([sent; Printed ("An error occurred: " ++ msg)], Ok VNone)
  | inl (Uncaught e) => ([sent], Raise e)
  end.
End Client.

(** ** Observation formatter *)

(** The f-string of one hourly block, by slot. *)
Definition observation_text (time_str temp weather_desc humidity pressure
    wind_speed wind_dir wind_gust visibility dew_point : string) : string :=
  LF ++ time_str ++ " - Temp: " ++ temp ++ "°C, Weather: " ++ weather_desc ++ LF ++
  "         Humidity: " ++ humidity ++ "%, Pressure: " ++ pressure ++ "hPa" ++ LF ++
  "         Wind: " ++ wind_speed ++ "mph from " ++ wind_dir ++
    " (gusts " ++ wind_gust ++ "mph)" ++ LF ++
  "         Visibility: " ++ visibility ++ "m, Dew Point: " ++ dew_point ++ "°C".

Definition time_text (time_minutes : Z) : string :=
  let hours := time_minutes / 60 in
  let minutes := time_minutes mod 60 in
  format_02d hours ++ ":" ++ format_02d minutes.

Definition section_header (date_formatted : string) : string :=
  LF ++ "=== " ++ date_formatted ++ " ===".

(** ["\n".join(lines)]. *)
Fixpoint join_lines (lines : list string) : string :=
  match lines with
  | [] => ""
  | [line] => line
  | line :: rest => line ++ LF ++ join_lines rest
  end.

Definition parse_failure (problem : string) : string :=
  "Failed to parse the observations data: " ++ problem ++
  ". The structure might have changed or the location is invalid.".

Definition not_found (name : string) : string :=
  "Location '" ++ name ++
  "' not found. Please check the spelling or try a different location name.".

Definition fetch_failure : string :=
  "Unable to fetch observations data for this location.".

Section Formatter.
Context (py : Builtins).

(** One hourly report. *)
Definition format_rep (rep : pyvalue) : result string :=
  minutes_field ← getitem rep "$";
  time_minutes ← py_int py minutes_field;
  let time_str := time_text time_minutes in
  temp ← get_method rep "T" (VStr "N/A");
  humidity ← get_method rep "H" (VStr "N/A");
  pressure ← get_method rep "P" (VStr "N/A");
  wind_speed ← get_method rep "S" (VStr "N/A");
  wind_gust ← get_method rep "G" (VStr "N/A");
  wind_dir ← get_method rep "D" (VStr "N/A");
  weather_code ← get_method rep "W" (VStr "NA");
  visibility ← get_method rep "V" (VStr "N/A");
  dew_point ← get_method rep "Dp" (VStr "N/A");
  weather_desc ← get_weather_description py weather_code;
  Ok (observation_text time_str (py_str py temp) weather_desc (py_str py humidity)
        (py_str py pressure) (py_str py wind_speed) (py_str py wind_dir)
        (py_str py wind_gust) (py_str py visibility) (py_str py dew_point)).

(** The inner loop; [observations] is the list being appended to. *)
Fixpoint format_reps (reps : list pyvalue) (observations : list string)
    : result (list string) :=
  match reps with
  | [] => Ok observations
  | rep :: rest =>
      observation ← format_rep rep;
      format_reps rest (observations ++ [observation])%list
  end.

(** The outer loop. *)
Fixpoint format_periods (periods : list pyvalue) (observations : list string)
    : result (list string) :=
  match periods with
  | [] => Ok observations
  | period :: rest =>
      date ← getitem period "value";
      date_formatted ← replace_method date "Z" "";
      let observations := (observations ++ [section_header date_formatted])%list in
      reps ← getitem period "Rep" ≫= iterate;
      observations ← format_reps reps observations;
      format_periods rest observations
  end.

(** The body of the [try] of the tool. *)
Definition format_observations (data : pyvalue) : result string :=
  site_rep ← getitem data "SiteRep";
  location ← getitem site_rep "DV" ≫= (λ dv, getitem dv "Location");
  location_name ← getitem location "name";
  let observations := ["Hourly observations for " ++ py_str py location_name ++ ":"] in
  periods ← getitem location "Period" ≫= iterate;
  observations ← format_periods periods observations;
  Ok (join_lines observations).
End Formatter.

(** ** The tool *)

Section Tool.
Context (py : Builtins) (MET_OFFICE_API_KEY : string).

Definition observations_url (locid : pyvalue) : string :=
  MET_OFFICE_API_BASE ++ "/wxobs/all/json/" ++ py_str py locid.

Definition observations_params : gmap string pyvalue := {[ "res" := VStr "hourly" ]}.

Definition get_hourly_observations (file : stations_file) (net : network)
    (name : string) : list event * result string :=
  let '(log1, found) := lookup_station_id py file name in
  match found with
  | Raise e => (log1, Raise e)
  | Ok locid =>
      if negb (truthy locid) then (log1, Ok (not_found name))
      else
        let url := observations_url locid in
        let params := observations_params in
        let '(log2, fetched) :=
          make_met_office_request MET_OFFICE_API_KEY net url (Some params) in
        match fetched with
        | Raise e => ((log1 ++ log2)%list, Raise e)
        | Ok data =>
            if negb (truthy data) then ((log1 ++ log2)%list, Ok fetch_failure)
            else
              ((log1 ++ log2)%list,
               match format_observations py data with
               | Ok report => Ok report
               | Raise (KeyError key) => Ok (parse_failure ("'" ++ key ++ "'"))
               | Raise (IndexError msg) | Raise (ValueError msg)
               | Raise (JSONDecodeError msg) | Raise (UnicodeDecodeError msg) =>
                   Ok (parse_failure msg)
               | Raise e => Raise e
               end)
        end
  end.
End Tool.

(** ** Startup *)

(** The check the module makes when it is loaded; [getenv] is what
    [os.getenv("MET_OFFICE_API_KEY")] gives. *)
Definition key_not_set : string :=
  "MET_OFFICE_API_KEY environment variable not set. Please set it in your .bashrc or similar.".

Definition load_api_key (getenv : option string) : result string :=
  match getenv with
  | Some key => if String.eqb key "" then Raise (ValueError key_not_set) else Ok key
  | None => Raise (ValueError key_not_set)
  end.

(** ** A concrete interpreter for examples

    A small interpreter for the examples, which use it only where it
    agrees with CPython: [lower] maps [A]-[Z] and leaves every other
    character, so it is [str.lower] on ASCII text; [int] reads an optional
    sign followed by decimal digits and rejects everything else -- also
    the literals with surrounding blanks or underscores that CPython
    reads; [repr] is a placeholder, not the text CPython prints. *)

Definition ascii_lower (c : ascii) : ascii :=
  let n := nat_of_ascii c in
  if ((65 <=? n) && (n <=? 90))%nat then ascii_of_nat (n + 32) else c.

Fixpoint lower_ascii (s : string) : string :=
  match s with
  | EmptyString => EmptyString
  | String c rest => String (ascii_lower c) (lower_ascii rest)
  end.

Fixpoint digits_value (s : string) (acc : Z) : option Z :=
  match s with
  | EmptyString => Some acc
  | String c rest =>
      let n := nat_of_ascii c in
      if ((48 <=? n) && (n <=? 57))%nat
      then digits_value rest (10 * acc + Z.of_nat (n - 48))
      else None
  end.

Definition int_ascii (s : string) : Z + string :=
  let unsigned t := match t with EmptyString => None | _ => digits_value t 0 end in
  let parsed :=
    match s with
    | String "-"%char rest => Z.opp <$> unsigned rest
    | String "+"%char rest => unsigned rest
    | _ => unsigned s
    end in
  match parsed with
  | Some n => inl n
  | None => inr ("invalid literal for int() with base 10: '" ++ s ++ "'")
  end.

Definition ascii_py : Builtins :=
  {| str_lower := lower_ascii; int_of_str := int_ascii; repr := λ _, "..." |}.

(** ** Vocabulary of the properties *)

(** A record of the directory: its name when that is a str, its id. *)
Definition name_of (location : pyvalue) : option string :=
  match location with
  | VDict fields =>
      match dict_lookup "name" fields with
      | Some (VStr name) => Some name
      | _ => None
      end
  | _ => None
  end.

Definition id_of (location : pyvalue) : option pyvalue :=
  match location with
  | VDict fields => dict_lookup "id" fields
  | _ => None
  end.

(** [data] has the shape [{"Locations": {"Location": locations}}]. *)
Definition is_directory (data : pyvalue) (locations : list pyvalue) : Prop :=
  ∃ top inner,
    data = VDict top ∧
    dict_lookup "Locations" top = Some (VDict inner) ∧
    dict_lookup "Location" inner = Some (VList locations).

(** A dict whose ["name"], when it has one, is a str. *)
Definition record_like (location : pyvalue) : Prop :=
  ∃ fields,
    location = VDict fields ∧
    (dict_lookup "name" fields = None ∨ ∃ name, dict_lookup "name" fields = Some (VStr name)).

Section Matching.
Context (py : Builtins).

(** The name equals the query, case-insensitively. *)
Definition exact_match (query_name : string) (location : pyvalue) : Prop :=
  ∃ name, name_of location = Some name ∧ str_lower py name = str_lower py query_name.

(** The name contains the query, case-insensitively. *)
Definition partial_match (query_name : string) (location : pyvalue) : Prop :=
  ∃ name before after,
    name_of location = Some name ∧
    str_lower py name = before ++ str_lower py query_name ++ after.

(** What a slot of the hourly block shows for the field [key]. *)
Definition shown (fields : list (string * pyvalue)) (key : string) : string :=
  match dict_lookup key fields with
  | Some v => py_str py v
  | None => "N/A"
  end.

(** What the weather slot shows. *)
Definition weather_shown (fields : list (string * pyvalue)) : result string :=
  match dict_lookup "W" fields with
  | Some code => get_weather_description py code
  | None => Ok "Not available"
  end.
End Matching.

(** [n] in two decimal digits. *)
Definition digit (d : Z) : ascii := ascii_of_nat (48 + Z.to_nat d).
Definition two_digits (n : Z) : string := String (digit (n / 10)) (String (digit (n mod 10)) "").

(** The date with one trailing zone marker taken off, if it ends in one. *)
Fixpoint strip_zone_marker (date : string) : string :=
  match date with
  | EmptyString => EmptyString
  | String c rest =>
      match rest with
      | EmptyString => if Ascii.eqb c "Z" then EmptyString else date
      | _ => String c (strip_zone_marker rest)
      end
  end.

(** The string without any occurrence of the character. *)
Fixpoint without_char (c : ascii) (s : string) : string :=
  match s with
  | EmptyString => EmptyString
  | String d rest => if Ascii.eqb d c then without_char c rest else String d (without_char c rest)
  end.

Fixpoint has_char (c : ascii) (s : string) : bool :=
  match s with
  | EmptyString => false
  | String d rest => Ascii.eqb d c || has_char c rest
  end.

(** The document misses a key of the directory's structure: ["Locations"],
    ["Location"], or the ["name"] or ["id"] of a record. *)
Definition lacks_expected_key (data : pyvalue) : Prop :=
  ∃ top, data = VDict top ∧
    (dict_lookup "Locations" top = None ∨
     ∃ inner, dict_lookup "Locations" top = Some (VDict inner) ∧
       (dict_lookup "Location" inner = None ∨
        ∃ locations, dict_lookup "Location" inner = Some (VList locations) ∧
          Exists (λ l, ∃ fields, l = VDict fields ∧
                    (dict_lookup "name" fields = None ∨ dict_lookup "id" fields = None))
                 locations)).

(** A computation that returns, or raises [KeyError] at worst. *)
Definition key_error_at_worst {A} (r : result A) : Prop :=
  match r with
  | Ok _ | Raise (KeyError _) => True
  | Raise _ => False
  end.

(** ** Sample data *)

Definition station (name id : string) : pyvalue :=
  VDict [("name", VStr name); ("id", VStr id)].

Definition directory (locations : list pyvalue) : stations_file :=
  FileJson (VDict [("Locations", VDict [("Location", VList locations)])]).

Definition site_report (name : string) (periods : pyvalue) : pyvalue :=
  VDict [("SiteRep", VDict [("DV", VDict [("Location",
    VDict [("name", VStr name); ("Period", periods)])])])].

Definition day (date : string) (reps : pyvalue) : pyvalue :=
  VDict [("type", VStr "Day"); ("value", VStr date); ("Rep", reps)].

Definition answering (data : pyvalue) : network :=
  λ _ _, Responded {| status_code := 200; text := ""; json := inr data |}.

Definition refusing (status : Z) (body : string) : network :=
  λ _ _, Responded {| status_code := status; text := body; json := inl "Expecting value" |}.

Definition cardinham_directory : stations_file :=
  directory [station "Cardinham Moor" "1"; station "CARDINHAM" "3823"].

(** A report at 01:30 with temperature, weather code and pressure, and
    no humidity. *)
Definition half_past_one : list (string * pyvalue) :=
  [("$", VStr "90"); ("T", VStr "15.2"); ("W", VStr "7"); ("P", VStr "1012")].

(** The payload of one day with that report, the periods in a list. *)
Definition one_day_payload : pyvalue :=
  site_report "CARDINHAM" (VList [day "2025-08-03Z" (VList [VDict half_past_one])]).

(** The same day sent as a single object in place of a one-element list. *)
Definition single_period_payload : pyvalue :=
  site_report "CARDINHAM" (day "2025-08-03Z" (VList [VDict half_past_one])).

(** ** Vocabulary of the further properties *)

(** A computation that returns, or raises an exception among [allowed]. *)
Definition raises_only {A} (allowed : exn → Prop) (r : result A) : Prop :=
  match r with
  | Ok _ => True
  | Raise e => allowed e
  end.

(** What indexing, method calls and iteration on a JSON value can raise. *)
Definition navigation_fault (e : exn) : Prop :=
  match e with
  | KeyError _ | TypeError | AttributeError => True
  | _ => False
  end.

(** What the body of the resolver's [try] can raise, and what is left
    after its handler. *)
Definition lookup_fault (e : exn) : Prop :=
  match e with
  | FileNotFoundError _ | JSONDecodeError _ | KeyError _ | TypeError | AttributeError => True
  | _ => False
  end.

Definition uncaught_lookup_fault (e : exn) : Prop :=
  e = TypeError ∨ e = AttributeError.

(** The exceptions the resolver's handler names. *)
Definition lookup_catches (e : exn) : Prop :=
  match e with
  | FileNotFoundError _ | JSONDecodeError _ | KeyError _ => True
  | _ => False
  end.

(** What the body of the tool's [try] can raise, and what is left after
    its handler. *)
Definition formatter_fault (e : exn) : Prop :=
  match e with
  | KeyError _ | ValueError _ | TypeError | AttributeError | OverflowError => True
  | _ => False
  end.

Definition uncaught_fault (e : exn) : Prop :=
  e = TypeError ∨ e = AttributeError ∨ e = OverflowError.

(** The key of the table whose description is [description]. *)
Fixpoint key_of (table : list (code_key * string)) (description : string) : option code_key :=
  match table with
  | [] => None
  | (k, d) :: rest => if String.eqb d description then Some k else key_of rest description
  end.

Definition is_get (e : event) : bool :=
  match e with
  | HttpGet _ _ _ => true
  | Printed _ => false
  end.

(** The requests of a log. *)
Definition gets (log : list event) : list event := List.filter is_get log.

(** A period as the report shows it: its date and the blocks of its
    hourly reports. *)
Record period_view := {
  view_date : string;
  view_blocks : list string;
}.

Section Views.
Context (py : Builtins).

(** The JSON period is an object with a str date and reports that format
    to the blocks of the view. *)
Definition period_shows (period : pyvalue) (view : period_view) : Prop :=
  ∃ fields reps_obj reps,
    period = VDict fields ∧
    dict_lookup "value" fields = Some (VStr (view_date view)) ∧
    dict_lookup "Rep" fields = Some reps_obj ∧
    iterate reps_obj = Ok reps ∧
    Forall2 (λ rep block, format_rep py rep = Ok block) reps (view_blocks view).

(** The lines of a view: header, then blocks. *)
Definition view_lines (view : period_view) : list string :=
  section_header (without_char "Z" (view_date view)) :: view_blocks view.

(** [data] is a site report for [name] over [periods]. *)
Definition is_site_report (data : pyvalue) (name : pyvalue) (periods : list pyvalue) : Prop :=
  ∃ top site dv location periods_obj,
    data = VDict top ∧
    dict_lookup "SiteRep" top = Some (VDict site) ∧
    dict_lookup "DV" site = Some (VDict dv) ∧
    dict_lookup "Location" dv = Some (VDict location) ∧
    dict_lookup "name" location = Some name ∧
    dict_lookup "Period" location = Some periods_obj ∧
    iterate periods_obj = Ok periods.
End Views.

Section Fetching.
Context (py : Builtins) (MET_OFFICE_API_KEY : string).

(** The name resolves to a station and the API answers the request for it
    with a 2xx status and the truthy JSON value [data]. *)
Definition fetches (file : stations_file) (net : network) (name : string)
    (data : pyvalue) : Prop :=
  ∃ log locid r,
    lookup_station_id py file name = (log, Ok locid) ∧
    truthy locid = true ∧
    net (observations_url py locid)
        (request_params MET_OFFICE_API_KEY (Some observations_params)) = Responded r ∧
    is_success r = true ∧
    json r = inr data ∧
    truthy data = true.
End Fetching.

(** * Properties *)

(** ** Weather code table *)

Section WeatherCodeFacts.
Context (py : Builtins).

Lemma codes_get_listed n description fallback :
  In (IntKey n, description) WEATHER_CODES →
  codes_get WEATHER_CODES (IntKey n) fallback = description.
Proof.
  unfold WEATHER_CODES. simpl.
  intros H. repeat (destruct H as [H | H]; [by inversion H |]). destruct H.
Qed.

Lemma codes_get_unlisted n fallback :
  ¬ (0 ≤ n ≤ 30) → codes_get WEATHER_CODES (IntKey n) fallback = fallback.
Proof.
  intros Hn. unfold WEATHER_CODES. cbn [codes_get code_key_eqb].
  repeat (match goal with |- context [(?k =? n)%Z] =>
            destruct (Z.eqb_spec k n); [lia |] end).
  reflexivity.
Qed.

Lemma codes_get_other_str s fallback :
  s ≠ "NA" → codes_get WEATHER_CODES (StrKey s) fallback = fallback.
Proof.
  intros Hs. unfold WEATHER_CODES. cbn [codes_get code_key_eqb].
  destruct (String.eqb_spec "NA" s); [congruence | reflexivity].
Qed.

Lemma codes_listed n : 0 ≤ n ≤ 30 → ∃ description, In (IntKey n, description) WEATHER_CODES.
Proof.
  intros Hn.
  assert (Hcases : ∃ k, (k ≤ 30)%nat ∧ n = Z.of_nat k) by (exists (Z.to_nat n); lia).
  destruct Hcases as (k & Hk & ->).
  do 31 (destruct k as [| k]; [eexists; cbn; eauto 40 |]). lia.
Qed.

Lemma describe_int n :
  get_weather_description py (VInt n)
  = Ok (codes_get WEATHER_CODES (IntKey n) ("Unknown code: " ++ string_of_Z n)).
Proof. reflexivity. Qed.

Lemma describe_numeric_str s n :
  int_of_str py s = inl n →
  get_weather_description py (VStr s)
  = Ok (codes_get WEATHER_CODES (IntKey n) ("Unknown code: " ++ s)).
Proof. intros H. unfold get_weather_description, py_int. by rewrite H. Qed.

Lemma describe_other_str s msg :
  int_of_str py s = inr msg →
  get_weather_description py (VStr s)
  = Ok (codes_get WEATHER_CODES (StrKey s) ("Unknown code: " ++ s)).
Proof. intros H. unfold get_weather_description, py_int. by rewrite H. Qed.

(** C3.  A code [n] given as an int, or as a str that [int] reads as
    [n], gets the documented description of [n] when [n] is one of 0 to
    30, and ["Unknown code: "] followed by the input as [str] prints it
    otherwise; the sentinel ["NA"] gets ["Not available"], and any other
    str gets ["Unknown code: "] followed by itself. *)
Theorem describe_codes :
  (∀ code n,
     code = VInt n ∨ (∃ s, code = VStr s ∧ int_of_str py s = inl n) →
     (n = 0 → get_weather_description py code = Ok "Clear night") ∧
     (n = 1 → get_weather_description py code = Ok "Sunny day") ∧
     (n = 2 → get_weather_description py code = Ok "Partly cloudy (night)") ∧
     (n = 3 → get_weather_description py code = Ok "Partly cloudy (day)") ∧
     (n = 4 → get_weather_description py code = Ok "Not used") ∧
     (n = 5 → get_weather_description py code = Ok "Mist") ∧
     (n = 6 → get_weather_description py code = Ok "Fog") ∧
     (n = 7 → get_weather_description py code = Ok "Cloudy") ∧
     (n = 8 → get_weather_description py code = Ok "Overcast") ∧
     (n = 9 → get_weather_description py code = Ok "Light rain shower (night)") ∧
     (n = 10 → get_weather_description py code = Ok "Light rain shower (day)") ∧
     (n = 11 → get_weather_description py code = Ok "Drizzle") ∧
     (n = 12 → get_weather_description py code = Ok "Light rain") ∧
     (n = 13 → get_weather_description py code = Ok "Heavy rain shower (night)") ∧
     (n = 14 → get_weather_description py code = Ok "Heavy rain shower (day)") ∧
     (n = 15 → get_weather_description py code = Ok "Heavy rain") ∧
     (n = 16 → get_weather_description py code = Ok "Sleet shower (night)") ∧
     (n = 17 → get_weather_description py code = Ok "Sleet shower (day)") ∧
     (n = 18 → get_weather_description py code = Ok "Sleet") ∧
     (n = 19 → get_weather_description py code = Ok "Hail shower (night)") ∧
     (n = 20 → get_weather_description py code = Ok "Hail shower (day)") ∧
     (n = 21 → get_weather_description py code = Ok "Hail") ∧
     (n = 22 → get_weather_description py code = Ok "Light snow shower (night)") ∧
     (n = 23 → get_weather_description py code = Ok "Light snow shower (day)") ∧
     (n = 24 → get_weather_description py code = Ok "Light snow") ∧
     (n = 25 → get_weather_description py code = Ok "Heavy snow shower (night)") ∧
     (n = 26 → get_weather_description py code = Ok "Heavy snow shower (day)") ∧
     (n = 27 → get_weather_description py code = Ok "Heavy snow") ∧
     (n = 28 → get_weather_description py code = Ok "Thunder shower (night)") ∧
     (n = 29 → get_weather_description py code = Ok "Thunder shower (day)") ∧
     (n = 30 → get_weather_description py code = Ok "Thunder") ∧
     (¬ (0 ≤ n ≤ 30) →
      get_weather_description py code = Ok ("Unknown code: " ++ py_str py code))) ∧
  (∀ msg, int_of_str py "NA" = inr msg →
     get_weather_description py (VStr "NA") = Ok "Not available") ∧
  (∀ s msg, int_of_str py s = inr msg → s ≠ "NA" →
     get_weather_description py (VStr s)
     = Ok ("Unknown code: " ++ py_str py (VStr s))).
Proof.
  split; [| split].
  - intros code n Hcode.
    assert (Hget : get_weather_description py code
                   = Ok (codes_get WEATHER_CODES (IntKey n)
                           ("Unknown code: " ++ py_str py code))).
    { destruct Hcode as [-> | (s & -> & Hs)];
        [apply describe_int | by apply describe_numeric_str]. }
    rewrite Hget.
    repeat match goal with |- _ ∧ _ => split end;
      try (intros ->; reflexivity).
    intros Hn. f_equal. by apply codes_get_unlisted.
  - intros msg Hna. by rewrite (describe_other_str _ msg Hna).
  - intros s msg Hs Hne. rewrite (describe_other_str s msg Hs). f_equal.
    by apply codes_get_other_str.
Qed.
End WeatherCodeFacts.

(** The table at work in the ASCII interpreter: code 7 as a str, the
    sentinel, 31 as an int and an unknown word. *)
Lemma describe_codes_witness :
  get_weather_description ascii_py (VStr "7") = Ok "Cloudy" ∧
  get_weather_description ascii_py (VInt 30) = Ok "Thunder" ∧
  get_weather_description ascii_py (VStr "NA") = Ok "Not available" ∧
  get_weather_description ascii_py (VInt 31) = Ok "Unknown code: 31" ∧
  get_weather_description ascii_py (VStr "fog") = Ok "Unknown code: fog".
Proof.
  destruct (describe_codes ascii_py) as (Hcode & Hna & Hstr).
  split; [| split; [| split; [| split]]].
  - assert (H := Hcode (VStr "7") 7 (or_intror (ex_intro _ "7" (conj eq_refl eq_refl)))).
    do 7 apply proj2 in H. exact (proj1 H eq_refl).
  - assert (H := Hcode (VInt 30) 30 (or_introl eq_refl)).
    do 30 apply proj2 in H. exact (proj1 H eq_refl).
  - by apply (Hna "invalid literal for int() with base 10: 'NA'").
  - assert (H := Hcode (VInt 31) 31 (or_introl eq_refl)).
    do 31 apply proj2 in H. apply H. lia.
  - by apply (Hstr "fog" "invalid literal for int() with base 10: 'fog'").
Defined.

(** ** Strings *)

Lemma append_cons c s t : String c s ++ t = String c (s ++ t).
Proof. reflexivity. Qed.

Lemma append_nil s : "" ++ s = s.
Proof. reflexivity. Qed.

Lemma prefix_app p s : String.prefix p s = true ↔ ∃ rest, s = p ++ rest.
Proof.
  revert s. induction p as [| c p IH]; intros s.
  - split; [intros _; by exists s | by destruct s].
  - destruct s as [| d s]; simpl.
    + split; [done | intros [rest Hrest]; discriminate].
    + destruct (ascii_dec c d) as [-> | Hne].
      * rewrite IH. split; intros [rest Hrest]; exists rest;
          rewrite append_cons in *; congruence.
      * split; [done | intros [rest Hrest]; rewrite append_cons in Hrest; congruence].
Qed.

(** [str_contains] is containment of a contiguous run. *)
Lemma str_contains_spec sub s :
  str_contains sub s = true ↔ ∃ before after, s = before ++ sub ++ after.
Proof.
  induction s as [| c s IH].
  - cbn [str_contains]. rewrite orb_false_r, prefix_app. split.
    + intros [rest Hrest]. by exists "", rest.
    + intros (before & after & H). destruct before; [by exists after | discriminate].
  - cbn [str_contains]. rewrite orb_true_iff, IH, prefix_app. split.
    + intros [[rest Hrest] | (before & after & H)].
      * by exists "", rest.
      * exists (String c before), after. by rewrite append_cons, H.
    + intros (before & after & H). destruct before as [| d before].
      * left. by exists after.
      * right. exists before, after. rewrite append_cons in H. congruence.
Qed.

(** ** Location resolver *)

Section ResolverFacts.
Context (py : Builtins).

Lemma exact_scan_cons q location rest name :
  name_of location = Some name →
  exact_scan py q (location :: rest)
  = if String.eqb (str_lower py name) (str_lower py q)
    then Some <$> getitem location "id"
    else exact_scan py q rest.
Proof.
  destruct location as [| | | | | | fields]; try discriminate. simpl.
  destruct (dict_lookup "name" fields) as [[| | | | name' | |] |]; try discriminate.
  by intros [= ->].
Qed.

Lemma partial_scan_cons q location rest name :
  name_of location = Some name →
  partial_scan py q (location :: rest)
  = if str_contains (str_lower py q) (str_lower py name)
    then Some <$> getitem location "id"
    else partial_scan py q rest.
Proof.
  destruct location as [| | | | | | fields]; try discriminate. simpl.
  destruct (dict_lookup "name" fields) as [[| | | | name' | |] |]; try discriminate.
  by intros [= ->].
Qed.

Lemma getitem_id location station :
  id_of location = Some station → getitem location "id" = Ok station.
Proof.
  destruct location as [| | | | | | fields]; try discriminate. simpl. by intros ->.
Qed.

Lemma exact_match_eqb q location name :
  name_of location = Some name →
  String.eqb (str_lower py name) (str_lower py q) = true ↔ exact_match py q location.
Proof.
  intros Hname. rewrite String.eqb_eq. split.
  - intros H. by exists name.
  - intros (name' & Hname' & H). congruence.
Qed.

Lemma partial_match_contains q location name :
  name_of location = Some name →
  str_contains (str_lower py q) (str_lower py name) = true ↔ partial_match py q location.
Proof.
  intros Hname. rewrite str_contains_spec. split.
  - intros (before & after & H). by exists name, before, after.
  - intros (name' & before & after & Hname' & H). exists before, after. congruence.
Qed.

(** The first loop passes over named records that do not match. *)
Lemma exact_scan_passes q before rest :
  Forall (λ l, is_Some (name_of l)) before →
  Forall (λ l, ¬ exact_match py q l) before →
  exact_scan py q (before ++ rest)%list = exact_scan py q rest.
Proof.
  induction before as [| location before IH]; [done |].
  intros Hnamed Hno. inversion_clear Hnamed as [| ? ? [name Hname] Hnamed'].
  inversion_clear Hno as [| ? ? Hmiss Hno'].
  cbn [app]. rewrite (exact_scan_cons _ _ _ _ Hname).
  destruct (String.eqb _ _) eqn:Heq; [| by apply IH].
  exfalso. by apply Hmiss, (exact_match_eqb _ _ _ Hname).
Qed.

Lemma partial_scan_passes q before rest :
  Forall (λ l, is_Some (name_of l)) before →
  Forall (λ l, ¬ partial_match py q l) before →
  partial_scan py q (before ++ rest)%list = partial_scan py q rest.
Proof.
  induction before as [| location before IH]; [done |].
  intros Hnamed Hno. inversion_clear Hnamed as [| ? ? [name Hname] Hnamed'].
  inversion_clear Hno as [| ? ? Hmiss Hno'].
  cbn [app]. rewrite (partial_scan_cons _ _ _ _ Hname).
  destruct (str_contains _ _) eqn:Heq; [| by apply IH].
  exfalso. by apply Hmiss, (partial_match_contains _ _ _ Hname).
Qed.

Lemma exact_scan_miss q locations :
  Forall (λ l, is_Some (name_of l)) locations →
  Forall (λ l, ¬ exact_match py q l) locations →
  exact_scan py q locations = Ok None.
Proof.
  intros Hnamed Hno.
  rewrite <- (app_nil_r locations). by rewrite exact_scan_passes.
Qed.

Lemma partial_scan_miss q locations :
  Forall (λ l, is_Some (name_of l)) locations →
  Forall (λ l, ¬ partial_match py q l) locations →
  partial_scan py q locations = Ok None.
Proof.
  intros Hnamed Hno.
  rewrite <- (app_nil_r locations). by rewrite partial_scan_passes.
Qed.

Lemma exact_scan_hit q location rest station :
  exact_match py q location → id_of location = Some station →
  exact_scan py q (location :: rest) = Ok (Some station).
Proof.
  intros Hmatch Hid. pose proof Hmatch as (name & Hname & _).
  rewrite (exact_scan_cons _ _ _ _ Hname).
  apply (exact_match_eqb _ _ _ Hname) in Hmatch. rewrite Hmatch.
  by rewrite (getitem_id _ _ Hid).
Qed.

Lemma partial_scan_hit q location rest station :
  partial_match py q location → id_of location = Some station →
  partial_scan py q (location :: rest) = Ok (Some station).
Proof.
  intros Hmatch Hid. pose proof Hmatch as (name & ? & ? & Hname & _).
  rewrite (partial_scan_cons _ _ _ _ Hname).
  apply (partial_match_contains _ _ _ Hname) in Hmatch. rewrite Hmatch.
  by rewrite (getitem_id _ _ Hid).
Qed.

(** On a document of the directory's shape the [try] body is the two
    loops. *)
Lemma lookup_body_directory data locations q :
  is_directory data locations →
  lookup_body py (FileJson data) q
  = exact ← exact_scan py q locations;
    match exact with
    | Some station => Ok station
    | None => partial ← partial_scan py q locations; Ok (default VNone partial)
    end.
Proof.
  intros (top & inner & -> & Htop & Hinner).
  unfold lookup_body. simpl. rewrite Htop. simpl. by rewrite Hinner.
Qed.
End ResolverFacts.

Section ResolverProperties.
Context (py : Builtins).

(** C1.  Over a directory whose records have a name and an id, the
    resolver returns the id of the first record, in file order, whose name
    equals the query case-insensitively, whatever partial matches come
    before it; with no such record, the id of the first record whose name
    contains the query case-insensitively; with neither, [None].  The
    result is a function of the directory and the query. *)
Theorem lookup_exact_then_partial data locations q :
  is_directory data locations →
  Forall (λ l, is_Some (name_of l) ∧ is_Some (id_of l)) locations →
  (∀ before location after station,
      locations = (before ++ location :: after)%list →
      Forall (λ l, ¬ exact_match py q l) before →
      exact_match py q location →
      id_of location = Some station →
      lookup_station_id py (FileJson data) q = ([], Ok station)) ∧
  (∀ before location after station,
      Forall (λ l, ¬ exact_match py q l) locations →
      locations = (before ++ location :: after)%list →
      Forall (λ l, ¬ partial_match py q l) before →
      partial_match py q location →
      id_of location = Some station →
      lookup_station_id py (FileJson data) q = ([], Ok station)) ∧
  (Forall (λ l, ¬ exact_match py q l) locations →
   Forall (λ l, ¬ partial_match py q l) locations →
   lookup_station_id py (FileJson data) q = ([], Ok VNone)).
Proof.
  intros Hdir Hwf.
  assert (Hnamed : Forall (λ l, is_Some (name_of l)) locations)
    by (eapply Forall_impl; [exact Hwf | by intros ? [? _]]).
  unfold lookup_station_id. rewrite (lookup_body_directory py _ _ _ Hdir).
  split; [| split].
  - intros before location after station -> Hbefore Hmatch Hid.
    apply Forall_app in Hnamed as [Hnamed _].
    rewrite exact_scan_passes by done.
    by rewrite (exact_scan_hit py _ _ _ _ Hmatch Hid).
  - intros before location after station Hno -> Hbefore Hmatch Hid.
    rewrite exact_scan_miss by done. simpl.
    apply Forall_app in Hnamed as [Hnamed _].
    rewrite partial_scan_passes by done.
    by rewrite (partial_scan_hit py _ _ _ _ Hmatch Hid).
  - intros Hno Hnone.
    rewrite exact_scan_miss by done. simpl.
    by rewrite partial_scan_miss.
Qed.
End ResolverProperties.

(** Two stations, the first a partial match for ["cardinham"], the second
    the exact one. *)
Lemma lookup_exact_then_partial_witness :
  let locations := [station "Cardinham Moor" "1"; station "CARDINHAM" "3823"] in
  lookup_station_id ascii_py (directory locations) "cardinham" = ([], Ok (VStr "3823")) ∧
  lookup_station_id ascii_py (directory locations) "moor" = ([], Ok (VStr "1")) ∧
  lookup_station_id ascii_py (directory locations) "exeter" = ([], Ok VNone).
Proof.
  intros locations.
  assert (Hdir : is_directory
            (VDict [("Locations", VDict [("Location", VList locations)])]) locations)
    by (by eexists _, _).
  assert (Hwf : Forall (λ l, is_Some (name_of l) ∧ is_Some (id_of l)) locations)
    by (repeat constructor; by eexists).
  assert (Hno : ∀ q name id,
            lower_ascii name ≠ lower_ascii q → ¬ exact_match ascii_py q (station name id)).
  { intros q name id Hne (name' & [= <-] & Heq). by apply Hne. }
  assert (Hnp : ∀ q name id,
            str_contains (lower_ascii q) (lower_ascii name) = false →
            ¬ partial_match ascii_py q (station name id)).
  { intros q name id Hne Hp.
    apply (partial_match_contains ascii_py q (station name id) name eq_refl) in Hp.
    simpl in Hp. congruence. }
  split; [| split].
  - destruct (lookup_exact_then_partial ascii_py _ locations "cardinham" Hdir Hwf)
      as (Hexact & _ & _).
    apply (Hexact [station "Cardinham Moor" "1"] (station "CARDINHAM" "3823") []).
    + reflexivity.
    + repeat constructor. by apply Hno.
    + by exists "CARDINHAM".
    + reflexivity.
  - destruct (lookup_exact_then_partial ascii_py _ locations "moor" Hdir Hwf)
      as (_ & Hpartial & _).
    apply (Hpartial [] (station "Cardinham Moor" "1") [station "CARDINHAM" "3823"]).
    + repeat constructor; by apply Hno.
    + reflexivity.
    + constructor.
    + by exists "Cardinham Moor", "cardinham ", "".
    + reflexivity.
  - destruct (lookup_exact_then_partial ascii_py _ locations "exeter" Hdir Hwf)
      as (_ & _ & Hnone).
    apply Hnone; repeat constructor; by (apply Hno || apply Hnp).
Defined.

Section DirectoryStates.
Context (py : Builtins).

Lemma getitem_key_error_at_worst fields key :
  key_error_at_worst (getitem (VDict fields) key).
Proof. simpl. by destruct (dict_lookup key fields). Qed.

Lemma exact_scan_key_error_at_worst q locations :
  Forall record_like locations → key_error_at_worst (exact_scan py q locations).
Proof.
  induction 1 as [| location rest (fields & -> & Hname) _ IH]; [done |].
  cbn [exact_scan getitem].
  destruct Hname as [-> | [name ->]]; [done |]. simpl.
  destruct (String.eqb _ _); [| exact IH].
  by destruct (dict_lookup "id" fields).
Qed.

Lemma partial_scan_key_error_at_worst q locations :
  Forall record_like locations → key_error_at_worst (partial_scan py q locations).
Proof.
  induction 1 as [| location rest (fields & -> & Hname) _ IH]; [done |].
  cbn [partial_scan getitem].
  destruct Hname as [-> | [name ->]]; [done |]. simpl.
  destruct (str_contains _ _); [| exact IH].
  by destruct (dict_lookup "id" fields).
Qed.

(** The handler turns a [KeyError] into [None]. *)
Lemma lookup_returns file q :
  key_error_at_worst (lookup_body py file q) →
  ∃ log station, lookup_station_id py file q = (log, Ok station).
Proof.
  unfold lookup_station_id.
  destruct (lookup_body py file q) as [station | []]; try done; eauto.
Qed.

(** C6, as the code has it.  A missing file, a text the parser rejects
    with [JSONDecodeError] (the empty file included), an object without
    ["Locations"] and a ["Locations"] object without ["Location"] resolve
    to [None].  A record without ["name"] does so when the first loop
    reaches it; a record without ["id"] when it is the one matched,
    exactly or as the first partial match; a record that matches exactly
    before the first loop reaches a damaged one is still returned.  Over
    records that are dicts with a str name, where present, the resolver
    always returns. *)
Theorem lookup_damaged_directory q :
  lookup_station_id py FileMissing q
  = ([Printed "Error reading stations.json: [Errno 2] No such file or directory: 'stations.json'"],
     Ok VNone) ∧
  (∀ msg, lookup_station_id py (FileMalformed msg) q
          = ([Printed ("Error reading stations.json: " ++ msg)], Ok VNone)) ∧
  (∀ top, dict_lookup "Locations" top = None →
          lookup_station_id py (FileJson (VDict top)) q = ([], Ok VNone)) ∧
  (∀ top inner,
      dict_lookup "Locations" top = Some (VDict inner) →
      dict_lookup "Location" inner = None →
      lookup_station_id py (FileJson (VDict top)) q = ([], Ok VNone)) ∧
  (∀ data before fields after,
      is_directory data (before ++ VDict fields :: after)%list →
      Forall (λ l, is_Some (name_of l)) before →
      Forall (λ l, ¬ exact_match py q l) before →
      dict_lookup "name" fields = None →
      lookup_station_id py (FileJson data) q
      = ([Printed "Error reading stations.json: 'name'"], Ok VNone)) ∧
  (∀ data before location after,
      is_directory data (before ++ location :: after)%list →
      Forall (λ l, is_Some (name_of l)) before →
      Forall (λ l, ¬ exact_match py q l) before →
      exact_match py q location →
      id_of location = None →
      lookup_station_id py (FileJson data) q
      = ([Printed "Error reading stations.json: 'id'"], Ok VNone)) ∧
  (∀ data before location after,
      is_directory data (before ++ location :: after)%list →
      Forall (λ l, is_Some (name_of l)) (before ++ location :: after)%list →
      Forall (λ l, ¬ exact_match py q l) (before ++ location :: after)%list →
      Forall (λ l, ¬ partial_match py q l) before →
      partial_match py q location →
      id_of location = None →
      lookup_station_id py (FileJson data) q
      = ([Printed "Error reading stations.json: 'id'"], Ok VNone)) ∧
  (∀ data before location after found,
      is_directory data (before ++ location :: after)%list →
      Forall (λ l, is_Some (name_of l)) before →
      Forall (λ l, ¬ exact_match py q l) before →
      exact_match py q location →
      id_of location = Some found →
      lookup_station_id py (FileJson data) q = ([], Ok found)) ∧
  (∀ data locations,
      is_directory data locations →
      Forall record_like locations →
      ∃ log station, lookup_station_id py (FileJson data) q = (log, Ok station)).
Proof.
  split; [done |]. split; [done |].
  split.
  { intros top Htop. unfold lookup_station_id, lookup_body. simpl. by rewrite Htop. }
  split.
  { intros top inner Htop Hinner.
    unfold lookup_station_id, lookup_body. simpl. rewrite Htop. simpl.
    by rewrite Hinner. }
  split.
  { intros data before fields after Hdir Hnamed Hno Hname.
    unfold lookup_station_id. rewrite (lookup_body_directory py _ _ _ Hdir).
    rewrite exact_scan_passes by done.
    cbn [exact_scan getitem]. by rewrite Hname. }
  split.
  { intros data before location after Hdir Hnamed Hno Hmatch Hid.
    unfold lookup_station_id. rewrite (lookup_body_directory py _ _ _ Hdir).
    rewrite exact_scan_passes by done.
    pose proof Hmatch as (name & Hname & _).
    rewrite (exact_scan_cons py _ _ _ _ Hname).
    apply (exact_match_eqb py _ _ _ Hname) in Hmatch. rewrite Hmatch.
    destruct location as [| | | | | | fields]; try discriminate.
    simpl in Hid. simpl. by rewrite Hid. }
  split.
  { intros data before location after Hdir Hnamed Hno Hbefore Hmatch Hid.
    unfold lookup_station_id. rewrite (lookup_body_directory py _ _ _ Hdir).
    rewrite exact_scan_miss by done. cbn [mbind result_bind].
    apply Forall_app in Hnamed as [Hnamed _].
    rewrite partial_scan_passes by done.
    pose proof Hmatch as (name & ? & ? & Hname & _).
    rewrite (partial_scan_cons py _ _ _ _ Hname).
    apply (partial_match_contains py _ _ _ Hname) in Hmatch. rewrite Hmatch.
    destruct location as [| | | | | | fields]; try discriminate.
    simpl in Hid. simpl. by rewrite Hid. }
  split.
  { intros data before location after found Hdir Hnamed Hno Hmatch Hid.
    unfold lookup_station_id. rewrite (lookup_body_directory py _ _ _ Hdir).
    rewrite exact_scan_passes by done.
    by rewrite (exact_scan_hit py _ _ _ _ Hmatch Hid). }
  intros data locations Hdir Hrecords.
  apply lookup_returns. rewrite (lookup_body_directory py _ _ _ Hdir).
  pose proof (exact_scan_key_error_at_worst q locations Hrecords) as Hexact.
  pose proof (partial_scan_key_error_at_worst q locations Hrecords) as Hpartial.
  destruct (exact_scan py q locations) as [[station |] | e]; simpl; try done.
  by destruct (partial_scan py q locations).
Qed.
End DirectoryStates.

(** Directories whose first record lacks its name, whose exact match or
    whose first partial match lacks its id, and whose second record lacks
    its name while the first matches; documents without the outer keys. *)
Lemma lookup_damaged_directory_witness :
  lookup_station_id ascii_py
    (directory [VDict [("id", VStr "3823")]; station "CARDINHAM" "3823"]) "cardinham"
  = ([Printed "Error reading stations.json: 'name'"], Ok VNone) ∧
  lookup_station_id ascii_py
    (directory [station "Camborne" "3808"; VDict [("name", VStr "CARDINHAM")]]) "cardinham"
  = ([Printed "Error reading stations.json: 'id'"], Ok VNone) ∧
  lookup_station_id ascii_py
    (directory [station "Camborne" "3808"; VDict [("name", VStr "Cardinham Moor")]]) "moor"
  = ([Printed "Error reading stations.json: 'id'"], Ok VNone) ∧
  lookup_station_id ascii_py
    (directory [station "Cardinham" "3823"; VDict [("id", VStr "3840")]]) "cardinham"
  = ([], Ok (VStr "3823")) ∧
  lookup_station_id ascii_py (FileJson (VDict [])) "cardinham" = ([], Ok VNone) ∧
  lookup_station_id ascii_py (FileJson (VDict [("Locations", VDict [])])) "cardinham"
  = ([], Ok VNone) ∧
  ∃ log found,
    lookup_station_id ascii_py
      (directory [station "Cardinham" "3823"; VDict [("id", VStr "3840")]]) "bude"
    = (log, Ok found).
Proof.
  destruct (lookup_damaged_directory ascii_py "cardinham")
    as (_ & _ & Htop & Hinner & Hname & Hid & _ & Hearlier & _).
  assert (Hno : ∀ q name id,
            lower_ascii name ≠ lower_ascii q → ¬ exact_match ascii_py q (station name id)).
  { intros q name id Hne (name' & [= <-] & Heq). by apply Hne. }
  split; [| split; [| split; [| split; [| split; [| split]]]]].
  - apply (Hname _ [] [("id", VStr "3823")] [station "CARDINHAM" "3823"]).
    + by eexists _, _.
    + constructor.
    + constructor.
    + reflexivity.
  - apply (Hid _ [station "Camborne" "3808"] (VDict [("name", VStr "CARDINHAM")]) []).
    + by eexists _, _.
    + repeat constructor. by eexists.
    + repeat constructor. by apply Hno.
    + by exists "CARDINHAM".
    + reflexivity.
  - destruct (lookup_damaged_directory ascii_py "moor")
      as (_ & _ & _ & _ & _ & _ & Hpartial & _).
    apply (Hpartial _ [station "Camborne" "3808"]
             (VDict [("name", VStr "Cardinham Moor")]) []).
    + by eexists _, _.
    + repeat constructor; by eexists.
    + repeat constructor; [by apply Hno |].
      by intros (name & [= <-] & Heq).
    + repeat constructor. intros Hp.
      apply (partial_match_contains ascii_py "moor" (station "Camborne" "3808")
               "Camborne" eq_refl) in Hp.
      simpl in Hp. congruence.
    + by exists "Cardinham Moor", "cardinham ", "".
    + reflexivity.
  - apply (Hearlier _ [] (station "Cardinham" "3823") [VDict [("id", VStr "3840")]]).
    + by eexists _, _.
    + constructor.
    + constructor.
    + by exists "Cardinham".
    + reflexivity.
  - by apply Htop.
  - by apply (Hinner _ []).
  - destruct (lookup_damaged_directory ascii_py "bude")
      as (_ & _ & _ & _ & _ & _ & _ & _ & Hret).
    apply (Hret _ [station "Cardinham" "3823"; VDict [("id", VStr "3840")]]).
    + by eexists _, _.
    + repeat constructor.
      * exists [("name", VStr "Cardinham"); ("id", VStr "3823")]. split; [done |].
        right. by exists "Cardinham".
      * exists [("id", VStr "3840")]. split; [done |]. by left.
Defined.

(** C6 as stated fails: a directory with a record that lacks its name still
    resolves a query that an earlier record matches. *)
Lemma lookup_missing_key_still_found :
  ¬ ∀ data q, lacks_expected_key data →
              (lookup_station_id ascii_py (FileJson data) q).2 = Ok VNone.
Proof.
  intros Hall.
  specialize (Hall
    (VDict [("Locations", VDict [("Location",
       VList [station "Cardinham" "3823"; VDict [("id", VStr "3840")]])])])
    "cardinham").
  assert (Hfound : (lookup_station_id ascii_py
            (directory [station "Cardinham" "3823"; VDict [("id", VStr "3840")]])
            "cardinham").2 = Ok (VStr "3823")) by reflexivity.
  unfold directory in Hfound. rewrite Hall in Hfound; [discriminate |].
  eexists. split; [reflexivity |]. right.
  eexists. split; [reflexivity |]. right.
  eexists. split; [reflexivity |].
  apply Exists_cons_tl, Exists_cons_hd. eexists. split; [reflexivity |]. by left.
Qed.

(** ** Observation formatter *)

Lemma format_02d_two_digits n : 0 ≤ n < 100 → format_02d n = two_digits n.
Proof.
  intros Hn.
  assert (Hcases : ∃ k, (k < 100)%nat ∧ n = Z.of_nat k) by (exists (Z.to_nat n); lia).
  destruct Hcases as (k & Hk & ->).
  do 100 (destruct k as [| k]; [reflexivity |]). lia.
Qed.

Lemma without_char_replace c s :
  str_replace (String c "") "" s = without_char c s.
Proof.
  unfold str_replace. induction s as [| d s IH]; [done |].
  cbn [replace_from without_char String.prefix String.length].
  rewrite Ascii.eqb_sym.
  destruct (ascii_dec c d) as [-> | Hne].
  - rewrite Ascii.eqb_refl. destruct s; simpl; by rewrite append_nil.
  - destruct (Ascii.eqb_spec c d); [done |]. by rewrite IH.
Qed.

Lemma without_char_trailing c stem :
  has_char c stem = false → without_char c (stem ++ String c "") = stem.
Proof.
  induction stem as [| d stem IH].
  - intros _. rewrite append_nil. simpl. by rewrite Ascii.eqb_refl.
  - cbn [has_char]. rewrite append_cons. cbn [without_char].
    destruct (Ascii.eqb d c); [done |]. intros H. by rewrite IH.
Qed.

Section FormatterFacts.
Context (py : Builtins).

Lemma py_str_default fields key :
  py_str py (default (VStr "N/A") (dict_lookup key fields)) = shown py fields key.
Proof. unfold shown. by destruct (dict_lookup key fields). Qed.

(** One hourly block, slot by slot. *)
Lemma format_rep_slots fields v t :
  dict_lookup "$" fields = Some v →
  py_int py v = Ok t →
  format_rep py (VDict fields)
  = weather_desc ← get_weather_description py (default (VStr "NA") (dict_lookup "W" fields));
    Ok (observation_text (time_text t) (shown py fields "T") weather_desc
          (shown py fields "H") (shown py fields "P") (shown py fields "S")
          (shown py fields "D") (shown py fields "G") (shown py fields "V")
          (shown py fields "Dp")).
Proof.
  intros Hfield Hint. unfold format_rep. cbn [getitem]. rewrite Hfield. simpl.
  rewrite Hint. simpl. by rewrite !py_str_default.
Qed.

Lemma weather_shown_default fields msg :
  int_of_str py "NA" = inr msg →
  get_weather_description py (default (VStr "NA") (dict_lookup "W" fields))
  = weather_shown py fields.
Proof.
  intros Hna. unfold weather_shown. destruct (dict_lookup "W" fields); [done |].
  unfold get_weather_description. simpl. by rewrite Hna.
Qed.

(** C4.  The time field, read as an int [t] of minutes, heads the block
    as [t div 60] and [t mod 60], each through the [02d] format and
    joined by a colon; below 6000 minutes both are exactly two decimal
    digits, and 90 gives [01:30]. *)
Theorem report_time_rendering :
  time_text 90 = "01:30" ∧
  (∀ t, time_text t = format_02d (t / 60) ++ ":" ++ format_02d (t mod 60)) ∧
  (∀ t, 0 ≤ t < 6000 → time_text t = two_digits (t / 60) ++ ":" ++ two_digits (t mod 60)) ∧
  (∀ fields v t weather_desc,
      dict_lookup "$" fields = Some v →
      py_int py v = Ok t →
      get_weather_description py (default (VStr "NA") (dict_lookup "W" fields))
      = Ok weather_desc →
      ∃ rest, format_rep py (VDict fields)
              = Ok (LF ++ time_text t ++ " - Temp: " ++ rest)).
Proof.
  split; [reflexivity |]. split; [reflexivity |]. split.
  - intros t Ht. unfold time_text.
    rewrite !format_02d_two_digits; [done | |].
    + pose proof (Z.mod_pos_bound t 60). lia.
    + split; [apply Z.div_pos; lia | apply Z.div_lt_upper_bound; lia].
  - intros fields v t weather_desc Hfield Hint Hweather.
    rewrite (format_rep_slots _ _ _ Hfield Hint), Hweather. simpl.
    unfold observation_text. eauto.
Qed.

(** C5, as the code has it.  In the block of a report each of the eight
    fields T, H, P, S, G, D, V and Dp shows its value or, when missing,
    ["N/A"]; a missing weather code shows ["Not available"]; each slot
    depends on its own field only, and a missing field does not make the
    report fail. *)
Theorem report_optional_fields fields v t msg weather_desc :
  dict_lookup "$" fields = Some v →
  py_int py v = Ok t →
  int_of_str py "NA" = inr msg →
  weather_shown py fields = Ok weather_desc →
  format_rep py (VDict fields)
  = Ok (observation_text (time_text t) (shown py fields "T") weather_desc
          (shown py fields "H") (shown py fields "P") (shown py fields "S")
          (shown py fields "D") (shown py fields "G") (shown py fields "V")
          (shown py fields "Dp")) ∧
  (∀ key, dict_lookup key fields = None → shown py fields key = "N/A") ∧
  (∀ key value, dict_lookup key fields = Some value → shown py fields key = py_str py value) ∧
  (dict_lookup "W" fields = None → weather_desc = "Not available").
Proof.
  intros Hfield Hint Hna Hweather. split; [| split; [| split]].
  - rewrite (format_rep_slots _ _ _ Hfield Hint), (weather_shown_default _ _ Hna), Hweather.
    reflexivity.
  - intros key Hkey. unfold shown. by rewrite Hkey.
  - intros key value Hkey. unfold shown. by rewrite Hkey.
  - intros Hw. unfold weather_shown in Hweather. rewrite Hw in Hweather. congruence.
Qed.

(** C9, as the code has it.  The header of a period shows its date with
    every ["Z"] removed, and is appended before the period's reports;
    when the only ["Z"] of the date is a trailing one, that is the date
    without its zone marker. *)
Theorem period_header_without_markers fields date reps_obj reps rest observations :
  dict_lookup "value" fields = Some (VStr date) →
  dict_lookup "Rep" fields = Some reps_obj →
  iterate reps_obj = Ok reps →
  format_periods py (VDict fields :: rest) observations
  = (observations ←
       format_reps py reps (observations ++ [section_header (without_char "Z" date)])%list;
     format_periods py rest observations) ∧
  section_header (without_char "Z" date) = LF ++ "=== " ++ without_char "Z" date ++ " ===" ∧
  (∀ stem, has_char "Z" stem = false → date = stem ++ "Z" → without_char "Z" date = stem).
Proof.
  intros Hdate Hrep Hiter. split; [| split].
  - cbn [format_periods getitem]. rewrite Hdate, Hrep.
    cbn [mbind result_bind replace_method]. by rewrite Hiter, without_char_replace.
  - reflexivity.
  - intros stem Hstem ->. by apply without_char_trailing.
Qed.
End FormatterFacts.

(** A report at minute 90, alone and inside a whole answer of the tool. *)
Lemma report_time_rendering_witness :
  (∃ rest, format_rep ascii_py (VDict half_past_one)
           = Ok (LF ++ "01:30" ++ " - Temp: " ++ rest)) ∧
  time_text 1439 = "23:59" ∧
  (get_hourly_observations ascii_py "key" cardinham_directory
     (answering one_day_payload) "cardinham").2
  = Ok (join_lines
          [ "Hourly observations for CARDINHAM:";
            section_header "2025-08-03";
            observation_text "01:30" "15.2" "Cloudy" "N/A" "1012" "N/A" "N/A" "N/A" "N/A" "N/A" ]).
Proof.
  destruct (report_time_rendering ascii_py) as (_ & _ & Hdigits & Hblock).
  split; [| split].
  - apply (Hblock half_past_one (VStr "90") 90 "Cloudy"); reflexivity.
  - rewrite Hdigits by lia. reflexivity.
  - vm_compute. reflexivity.
Defined.

(** The report without humidity: the slot shows the placeholder, the
    others their values. *)
Lemma report_optional_fields_witness :
  format_rep ascii_py (VDict half_past_one)
  = Ok (observation_text "01:30" "15.2" "Cloudy" "N/A" "1012" "N/A" "N/A" "N/A" "N/A" "N/A") ∧
  ∃ block, format_rep ascii_py (VDict half_past_one) = Ok block ∧
           str_contains "Humidity: N/A%" block = true.
Proof.
  assert (Hblock := proj1 (report_optional_fields ascii_py half_past_one (VStr "90") 90
            "invalid literal for int() with base 10: 'NA'" "Cloudy"
            eq_refl eq_refl eq_refl eq_refl)).
  split; [exact Hblock |].
  eexists. split; [exact Hblock |]. vm_compute. reflexivity.
Defined.

(** C5 as stated fails for the weather code: its slot shows the table's
    description of the sentinel, not the ["N/A"] placeholder. *)
Lemma missing_weather_code_not_placeholder :
  ∃ block, format_rep ascii_py (VDict [("$", VStr "90")]) = Ok block ∧
           str_contains "Weather: Not available" block = true ∧
           str_contains "Weather: N/A" block = false.
Proof. eexists. split; [reflexivity |]. split; vm_compute; reflexivity. Qed.

(** One period dated ["2025-08-03Z"] with no report. *)
Lemma period_header_without_markers_witness :
  format_periods ascii_py [day "2025-08-03Z" (VList [])] ["Hourly observations for X:"]
  = Ok ["Hourly observations for X:"; section_header "2025-08-03"].
Proof.
  unfold day.
  rewrite (proj1 (period_header_without_markers ascii_py
                    [("type", VStr "Day"); ("value", VStr "2025-08-03Z"); ("Rep", VList [])]
                    "2025-08-03Z" (VList []) [] [] ["Hourly observations for X:"]
                    eq_refl eq_refl eq_refl)).
  reflexivity.
Defined.

(** C9 as stated fails: a ["Z"] inside the date is removed too. *)
Lemma inner_zone_marker_removed :
  format_periods ascii_py [day "2025-08-03Z00:00Z" (VList [])] []
  = Ok [section_header "2025-08-0300:00"] ∧
  strip_zone_marker "2025-08-03Z00:00Z" = "2025-08-03Z00:00" ∧
  section_header "2025-08-0300:00" ≠ section_header (strip_zone_marker "2025-08-03Z00:00Z").
Proof. split; [reflexivity |]. split; [reflexivity |]. vm_compute. discriminate. Qed.

(** C2 at two payloads.  Without the envelope key the tool returns the
    parse failure text; with the periods sent as a single object the
    [TypeError] of indexing a str leaves the tool, since its handler
    names [KeyError], [IndexError] and [ValueError] only. *)
Theorem wrong_type_escapes_handler (key : string) :
  (get_hourly_observations ascii_py key cardinham_directory
     (answering (VDict [("error", VStr "no data")])) "cardinham").2
  = Ok (parse_failure "'SiteRep'") ∧
  (get_hourly_observations ascii_py key cardinham_directory
     (answering single_period_payload) "cardinham").2
  = Raise TypeError.
Proof. split; vm_compute; reflexivity. Qed.

(** Two more ways out of the handler: a date that is not a str has no
    [replace], and [int] overflows on a weather code of infinity. *)
Lemma other_faults_escape_handler (key : string) :
  (get_hourly_observations ascii_py key cardinham_directory
     (answering (site_report "CARDINHAM"
        (VList [VDict [("value", VInt 20250803); ("Rep", VList [])]])))
     "cardinham").2
  = Raise AttributeError ∧
  (get_hourly_observations ascii_py key cardinham_directory
     (answering (site_report "CARDINHAM"
        (VList [day "2025-08-03Z"
                  (VList [VDict [("$", VStr "90"); ("W", VFloat (S754_infinity false))]])])))
     "cardinham").2
  = Raise OverflowError.
Proof. split; vm_compute; reflexivity. Qed.

(** ** API client *)

Section ClientProperties.
Context (MET_OFFICE_API_KEY : string).

(** C8.  The parameters of the request always hold ["key"].  A dict that
    comes with one goes out unchanged; otherwise the configured key is
    added and nothing else changes; the GET is issued with these
    parameters. *)
Theorem request_key_parameter (params : option (gmap string pyvalue)) :
  is_Some (request_params MET_OFFICE_API_KEY params !! "key") ∧
  (∀ d v, params = Some d → d !! "key" = Some v →
          request_params MET_OFFICE_API_KEY params = d) ∧
  (∀ d, params = Some d → d !! "key" = None →
        request_params MET_OFFICE_API_KEY params = <["key" := VStr MET_OFFICE_API_KEY]> d) ∧
  (params = None →
   request_params MET_OFFICE_API_KEY params = {["key" := VStr MET_OFFICE_API_KEY]}) ∧
  (∀ (k : string), k ≠ "key" →
     request_params MET_OFFICE_API_KEY params !! k = default ∅ params !! k) ∧
  (∀ net url, ∃ log,
      (make_met_office_request MET_OFFICE_API_KEY net url params).1
      = HttpGet url (request_params MET_OFFICE_API_KEY params) 30 :: log).
Proof.
  unfold request_params, setdefault.
  split; [| split; [| split; [| split; [| split]]]].
  - destruct (default ∅ params !! "key") as [v |] eqn:Hkey.
    + by exists v.
    + rewrite lookup_insert_eq. by eexists.
  - intros d v -> Hkey. simpl. by rewrite Hkey.
  - intros d -> Hkey. simpl. by rewrite Hkey.
  - intros ->. simpl. rewrite lookup_empty. by rewrite insert_empty.
  - intros k Hk. destruct (default ∅ params !! "key"); [done |].
    by rewrite lookup_insert_ne.
  - intros net url. unfold make_met_office_request.
    destruct (request_body _ _ _) as [[r | msg | e] | data]; by eexists.
Qed.

(** C7, as the code has it.  A response outside 2xx, a fault of the
    transport and a body that is not JSON all end the same way: one GET,
    one printed line -- with the status code and the body in the first
    case -- and the return value [None]; nothing is raised. *)
Theorem request_failure_reported (net : network) (url : string)
    (params : option (gmap string pyvalue)) :
  (∀ r, net url (request_params MET_OFFICE_API_KEY params) = Responded r →
        is_success r = false →
        make_met_office_request MET_OFFICE_API_KEY net url params
        = ([HttpGet url (request_params MET_OFFICE_API_KEY params) 30;
            Printed ("HTTP Error: " ++ string_of_Z (status_code r) ++ " - " ++ text r)],
           Ok VNone)) ∧
  (∀ msg, net url (request_params MET_OFFICE_API_KEY params) = Fault msg →
          make_met_office_request MET_OFFICE_API_KEY net url params
          = ([HttpGet url (request_params MET_OFFICE_API_KEY params) 30;
              Printed ("An error occurred: " ++ msg)],
             Ok VNone)) ∧
  (∀ r msg, net url (request_params MET_OFFICE_API_KEY params) = Responded r →
            is_success r = true →
            json r = inl msg →
            make_met_office_request MET_OFFICE_API_KEY net url params
            = ([HttpGet url (request_params MET_OFFICE_API_KEY params) 30;
                Printed ("An error occurred: " ++ msg)],
               Ok VNone)).
Proof.
  unfold make_met_office_request, request_body.
  split; [| split].
  - intros r -> Hstatus. by rewrite Hstatus.
  - by intros msg ->.
  - intros r msg -> Hstatus Hjson. by rewrite Hstatus, Hjson.
Qed.
End ClientProperties.

(** A caller who brings a key keeps it; one who does not gets the
    configured key. *)
Lemma request_key_parameter_witness :
  request_params "configured" (Some {[ "key" := VStr "mine"; "res" := VStr "hourly" ]})
  = {[ "key" := VStr "mine"; "res" := VStr "hourly" ]} ∧
  request_params "configured" (Some {[ "res" := VStr "hourly" ]})
  = <["key" := VStr "configured"]> {[ "res" := VStr "hourly" ]} ∧
  request_params "configured" None = {[ "key" := VStr "configured" ]}.
Proof.
  split; [| split].
  - destruct (request_key_parameter "configured"
                (Some {[ "key" := VStr "mine"; "res" := VStr "hourly" ]}))
      as (_ & Hkept & _).
    by apply (Hkept _ (VStr "mine")).
  - destruct (request_key_parameter "configured" (Some {[ "res" := VStr "hourly" ]}))
      as (_ & _ & Hadded & _).
    by apply Hadded.
  - destruct (request_key_parameter "configured" None) as (_ & _ & _ & Hnone & _).
    by apply Hnone.
Defined.

(** A 404 with its body, a refused connection and a 200 with a body that
    is not JSON. *)
Lemma request_failure_reported_witness :
  (make_met_office_request "k" (refusing 404 "Not Found") "http://x" None).2 = Ok VNone ∧
  (make_met_office_request "k" (refusing 404 "Not Found") "http://x" None).1
  = [HttpGet "http://x" {[ "key" := VStr "k" ]} 30; Printed "HTTP Error: 404 - Not Found"] ∧
  (make_met_office_request "k" (λ _ _, Fault "connection refused") "http://x" None).2
  = Ok VNone ∧
  (make_met_office_request "k" (refusing 200 "<html>") "http://x" None).2 = Ok VNone.
Proof.
  split; [| split; [| split]].
  - by rewrite (proj1 (request_failure_reported "k" (refusing 404 "Not Found") "http://x" None)
                  {| status_code := 404; text := "Not Found"; json := inl "Expecting value" |}
                  eq_refl eq_refl).
  - by rewrite (proj1 (request_failure_reported "k" (refusing 404 "Not Found") "http://x" None)
                  {| status_code := 404; text := "Not Found"; json := inl "Expecting value" |}
                  eq_refl eq_refl).
  - by rewrite (proj1 (proj2 (request_failure_reported "k" (λ _ _, Fault "connection refused")
                                "http://x" None))
                  "connection refused" eq_refl).
  - by rewrite (proj2 (proj2 (request_failure_reported "k" (refusing 200 "<html>")
                                "http://x" None))
                  {| status_code := 200; text := "<html>"; json := inl "Expecting value" |}
                  "Expecting value" eq_refl eq_refl eq_refl).
Defined.

(** C7 as stated fails: the status code cannot be read off the returned
    value, which is [None] for a 404 and for a 500 alike. *)
Lemma returned_failure_hides_status :
  ¬ ∃ status_of : result pyvalue → Z,
      ∀ status body, ¬ (200 ≤ status ≤ 299) →
        status_of (make_met_office_request "k" (refusing status body) "http://x" None).2
        = status.
Proof.
  intros (status_of & Hcarries).
  pose proof (Hcarries 404 "Not Found" ltac:(lia)) as H404.
  pose proof (Hcarries 500 "Internal Server Error" ltac:(lia)) as H500.
  vm_compute in H404, H500. congruence.
Qed.

(** ** The tool *)

Section ToolProperties.
Context (py : Builtins) (MET_OFFICE_API_KEY : string).

(** C10.  Once the station is resolved, a 2xx response whose JSON value is
    falsy -- the empty object, null, false and 0 are -- makes the tool
    return ["Unable to fetch observations data for this location."], the
    very text a transport fault or an error status gives; the payload
    never reaches the formatter. *)
Theorem falsy_payload_is_fetch_failure file (net : network) name log locid :
  lookup_station_id py file name = (log, Ok locid) →
  truthy locid = true →
  let asked :=
    net (observations_url py locid)
        (request_params MET_OFFICE_API_KEY (Some observations_params)) in
  (∀ r data,
      asked = Responded r → is_success r = true → json r = inr data →
      truthy data = false →
      (get_hourly_observations py MET_OFFICE_API_KEY file net name).2
      = Ok "Unable to fetch observations data for this location.") ∧
  (∀ msg,
      asked = Fault msg →
      (get_hourly_observations py MET_OFFICE_API_KEY file net name).2
      = Ok "Unable to fetch observations data for this location.") ∧
  (∀ r,
      asked = Responded r → is_success r = false →
      (get_hourly_observations py MET_OFFICE_API_KEY file net name).2
      = Ok "Unable to fetch observations data for this location.") ∧
  truthy (VDict []) = false ∧ truthy VNone = false ∧
  truthy (VBool false) = false ∧ truthy (VInt 0) = false.
Proof.
  intros Hlookup Hlocid asked.
  unfold get_hourly_observations. rewrite Hlookup, Hlocid. cbn [negb].
  unfold make_met_office_request, request_body. fold asked.
  split; [| split; [| split; [| done]]].
  - intros r data -> Hstatus Hjson Hfalsy. rewrite Hstatus, Hjson. simpl.
    by rewrite Hfalsy.
  - by intros msg ->.
  - intros r -> Hstatus. by rewrite Hstatus.
Qed.
End ToolProperties.

(** The upstream API answers [{}] for a resolved station, or does not
    answer. *)
Lemma falsy_payload_is_fetch_failure_witness :
  (get_hourly_observations ascii_py "key" cardinham_directory (answering (VDict []))
     "cardinham").2
  = Ok "Unable to fetch observations data for this location." ∧
  (get_hourly_observations ascii_py "key" cardinham_directory
     (λ _ _, Fault "connection refused") "cardinham").2
  = Ok "Unable to fetch observations data for this location.".
Proof.
  assert (Hlookup : lookup_station_id ascii_py cardinham_directory "cardinham"
                    = ([], Ok (VStr "3823"))) by reflexivity.
  split.
  - apply (proj1 (falsy_payload_is_fetch_failure ascii_py "key" cardinham_directory
                    (answering (VDict [])) "cardinham" [] (VStr "3823") Hlookup eq_refl)
             {| status_code := 200; text := ""; json := inr (VDict []) |} (VDict []));
      reflexivity.
  - apply (proj1 (proj2 (falsy_payload_is_fetch_failure ascii_py "key" cardinham_directory
                           (λ _ _, Fault "connection refused") "cardinham" [] (VStr "3823")
                           Hlookup eq_refl))
             "connection refused").
    reflexivity.
Defined.

(** * Further properties *)

(** ** Weather code table *)

Lemma string_of_Z_inj m n : string_of_Z m = string_of_Z n → m = n.
Proof.
  unfold string_of_Z. intros H.
  assert (Hnil : ∀ z, Z.to_int z ≠ Decimal.Pos Decimal.Nil ∧ Z.to_int z ≠ Decimal.Neg Decimal.Nil).
  { intros [| p | p]; split; try discriminate;
      intros [= Hp]; by apply (DecimalPos.Unsigned.to_uint_nonnil p). }
  apply DecimalZ.to_int_inj.
  destruct (Hnil m) as [Hm1 Hm2], (Hnil n) as [Hn1 Hn2].
  pose proof (NilZero.isi _ Hm1 Hm2) as Him. pose proof (NilZero.isi _ Hn1 Hn2) as Hin.
  rewrite H in Him. congruence.
Qed.

Lemma Ok_inj {A} (a b : A) : Ok a = Ok b → a = b.
Proof. by intros [=]. Qed.

Lemma append_inj_l p a b : p ++ a = p ++ b → a = b.
Proof.
  induction p as [| c p IH]; [by rewrite !append_nil |].
  rewrite !append_cons. intros [= H]. by apply IH.
Qed.

Lemma code_key_eqb_eq a b : code_key_eqb a b = true ↔ a = b.
Proof.
  destruct a as [m | s], b as [n | t]; simpl.
  - rewrite Z.eqb_eq. split; congruence.
  - split; discriminate.
  - split; discriminate.
  - rewrite String.eqb_eq. split; congruence.
Qed.

Lemma codes_get_cases table key fallback :
  In (key, codes_get table key fallback) table ∨ codes_get table key fallback = fallback.
Proof.
  induction table as [| [k d] table IH]; [by right |]. simpl.
  destruct (code_key_eqb k key) eqn:Hk.
  - apply code_key_eqb_eq in Hk as ->. left. by left.
  - destruct IH as [IH | IH]; [left; by right | by right].
Qed.

Lemma listed_not_unknown key description :
  In (key, description) WEATHER_CODES → String.prefix "Unknown code: " description = false.
Proof.
  unfold WEATHER_CODES. simpl.
  intros H. repeat (destruct H as [H | H]; [by inversion H |]). destruct H.
Qed.

Lemma key_of_listed key description :
  In (key, description) WEATHER_CODES → key_of WEATHER_CODES description = Some key.
Proof.
  unfold WEATHER_CODES. simpl.
  intros H. repeat (destruct H as [H | H]; [by inversion H |]). destruct H.
Qed.

Section WeatherCodeMore.
Context (py : Builtins).

(** X1.  The description of a code is always an entry of the table or
    ["Unknown code: "] followed by the code as [str] prints it, never both:
    no description of the table begins with ["Unknown code: "]. *)
Theorem describe_range code description :
  get_weather_description py code = Ok description →
  ((∃ key, In (key, description) WEATHER_CODES) ∧
   String.prefix "Unknown code: " description = false) ∨
  (description = "Unknown code: " ++ py_str py code ∧
   String.prefix "Unknown code: " description = true).
Proof.
  unfold get_weather_description.
  assert (Hget : ∀ key,
    ((∃ k, In (k, codes_get WEATHER_CODES key ("Unknown code: " ++ py_str py code))
             WEATHER_CODES) ∧
     String.prefix "Unknown code: "
       (codes_get WEATHER_CODES key ("Unknown code: " ++ py_str py code)) = false) ∨
    (codes_get WEATHER_CODES key ("Unknown code: " ++ py_str py code)
     = "Unknown code: " ++ py_str py code ∧
     String.prefix "Unknown code: "
       (codes_get WEATHER_CODES key ("Unknown code: " ++ py_str py code)) = true)).
  { intros key.
    destruct (codes_get_cases WEATHER_CODES key ("Unknown code: " ++ py_str py code))
      as [Hin | Hdef].
    - left. split; [by eexists | by eapply listed_not_unknown].
    - right. split; [done |]. rewrite Hdef. apply prefix_app. by eexists. }
  destruct (py_int py code) as [n | []]; try discriminate;
    intros H%Ok_inj; subst description; apply Hget.
Qed.

(** X2.  The only value [get_weather_description] raises on is a float
    infinity, with [OverflowError]; on every other value it returns. *)
Theorem describe_raises_on_infinity_only code :
  (∀ negative, code = VFloat (S754_infinity negative) →
     get_weather_description py code = Raise OverflowError) ∧
  ((∀ negative, code ≠ VFloat (S754_infinity negative)) →
     ∃ description, get_weather_description py code = Ok description).
Proof.
  split.
  - by intros negative ->.
  - intros Hfinite. unfold get_weather_description.
    destruct code as [| b | n | [z | inf | | s m e] | s | items | fields]; simpl;
      try (by eexists).
    + by destruct (Hfinite inf).
    + destruct (int_of_str py s); by eexists.
Qed.

(** X3.  A bool is described as the code 1 or 0, and a finite float as the
    code it truncates to, towards zero. *)
Theorem describe_bool_and_float :
  get_weather_description py (VBool true) = Ok "Sunny day" ∧
  get_weather_description py (VBool false) = Ok "Clear night" ∧
  (∀ negative, get_weather_description py (VFloat (S754_zero negative)) = Ok "Clear night") ∧
  (∀ negative m e description,
      In (IntKey (float_trunc negative m e), description) WEATHER_CODES →
      get_weather_description py (VFloat (S754_finite negative m e)) = Ok description) ∧
  (∀ negative m e,
      ¬ (0 ≤ float_trunc negative m e ≤ 30) →
      get_weather_description py (VFloat (S754_finite negative m e))
      = Ok ("Unknown code: " ++ py_str py (VFloat (S754_finite negative m e)))).
Proof.
  split; [done |]. split; [done |]. split; [done |]. split.
  - intros negative m e description Hin. unfold get_weather_description. simpl.
    f_equal. by apply codes_get_listed.
  - intros negative m e Hout. unfold get_weather_description. simpl.
    f_equal. by apply codes_get_unlisted.
Qed.

(** X4.  Distinct int codes never share a description, and the code of a
    listed description is found back in the table. *)
Theorem describe_int_injective :
  (∀ m n, get_weather_description py (VInt m) = get_weather_description py (VInt n) →
          m = n) ∧
  (∀ n description,
      0 ≤ n ≤ 30 →
      get_weather_description py (VInt n) = Ok description →
      key_of WEATHER_CODES description = Some (IntKey n)).
Proof.
  assert (Hback : ∀ n description, 0 ≤ n ≤ 30 →
            get_weather_description py (VInt n) = Ok description →
            key_of WEATHER_CODES description = Some (IntKey n)).
  { intros n description Hn. rewrite describe_int. intros H%Ok_inj. subst description.
    destruct (codes_listed n Hn) as [d Hd].
    rewrite (codes_get_listed n d _ Hd). by apply key_of_listed. }
  split; [| exact Hback].
  intros m n Heq.
  destruct (decide (0 ≤ m ≤ 30)) as [Hm | Hm], (decide (0 ≤ n ≤ 30)) as [Hn | Hn].
  - destruct (codes_listed m Hm) as [dm Hdm].
    pose proof (Hback m dm Hm) as Hbm. pose proof (Hback n dm Hn) as Hbn.
    rewrite <- Heq in Hbn. rewrite describe_int, (codes_get_listed m dm _ Hdm) in Hbm, Hbn.
    specialize (Hbm eq_refl). specialize (Hbn eq_refl). congruence.
  - exfalso. destruct (codes_listed m Hm) as [dm Hdm].
    rewrite !describe_int in Heq.
    rewrite (codes_get_listed m dm _ Hdm), (codes_get_unlisted n _ Hn) in Heq.
    apply Ok_inj in Heq. subst dm. apply listed_not_unknown in Hdm.
    assert (String.prefix "Unknown code: " ("Unknown code: " ++ string_of_Z n) = true)
      by (apply prefix_app; by eexists).
    congruence.
  - exfalso. destruct (codes_listed n Hn) as [dn Hdn].
    rewrite !describe_int in Heq.
    rewrite (codes_get_listed n dn _ Hdn), (codes_get_unlisted m _ Hm) in Heq.
    apply Ok_inj in Heq. subst dn. apply listed_not_unknown in Hdn.
    assert (String.prefix "Unknown code: " ("Unknown code: " ++ string_of_Z m) = true)
      by (apply prefix_app; by eexists).
    congruence.
  - rewrite !describe_int in Heq.
    rewrite (codes_get_unlisted m _ Hm), (codes_get_unlisted n _ Hn) in Heq.
    apply Ok_inj in Heq. by apply string_of_Z_inj, (append_inj_l "Unknown code: ").
Qed.
End WeatherCodeMore.

(** A str code of the table, an unknown word, a value that is no number,
    the floats 7.5 and -0.5, and the way back from a description. *)
Lemma describe_range_witness :
  ((∃ key, In (key, "Cloudy") WEATHER_CODES) ∧
   String.prefix "Unknown code: " "Cloudy" = false) ∨
  ("Cloudy" = "Unknown code: " ++ py_str ascii_py (VStr "7") ∧
   String.prefix "Unknown code: " "Cloudy" = true).
Proof. exact (describe_range ascii_py (VStr "7") "Cloudy" eq_refl). Defined.

Lemma describe_raises_on_infinity_only_witness :
  get_weather_description ascii_py (VFloat (S754_infinity true)) = Raise OverflowError ∧
  ∃ description, get_weather_description ascii_py VNone = Ok description.
Proof.
  split.
  - exact (proj1 (describe_raises_on_infinity_only ascii_py (VFloat (S754_infinity true)))
             true eq_refl).
  - apply (proj2 (describe_raises_on_infinity_only ascii_py VNone)). discriminate.
Defined.

Lemma describe_bool_and_float_witness :
  get_weather_description ascii_py (VFloat (S754_finite false 15 (-1))) = Ok "Cloudy" ∧
  get_weather_description ascii_py (VFloat (S754_finite true 1 (-1))) = Ok "Clear night" ∧
  get_weather_description ascii_py (VFloat (S754_finite false 31 0))
  = Ok ("Unknown code: " ++ py_str ascii_py (VFloat (S754_finite false 31 0))).
Proof.
  destruct (describe_bool_and_float ascii_py) as (_ & _ & _ & Hlisted & Hout).
  split; [| split].
  - apply Hlisted. change (float_trunc false 15 (-1)) with 7. cbn. tauto.
  - apply Hlisted. change (float_trunc true 1 (-1)) with 0. cbn. tauto.
  - apply Hout. change (float_trunc false 31 0) with 31. lia.
Defined.

Lemma describe_int_injective_witness :
  key_of WEATHER_CODES "Cloudy" = Some (IntKey 7) ∧
  get_weather_description ascii_py (VInt 31) ≠ get_weather_description ascii_py (VInt 32).
Proof.
  destruct (describe_int_injective ascii_py) as [Hinj Hback].
  split.
  - apply Hback; [lia | reflexivity].
  - intros Heq. by apply Hinj in Heq.
Defined.

(** ** Location resolver *)

Lemma raises_only_bind {A B} (allowed : exn → Prop) (m : result A) (f : A → result B) :
  raises_only allowed m →
  (∀ a, m = Ok a → raises_only allowed (f a)) →
  raises_only allowed (m ≫= f).
Proof. destruct m as [a | e]; simpl; eauto. Qed.

Lemma raises_only_fmap {A B} (allowed : exn → Prop) (m : result A) (f : A → B) :
  raises_only allowed m → raises_only allowed (f <$> m).
Proof. by destruct m. Qed.

Lemma raises_only_weaken {A} (allowed allowed' : exn → Prop) (r : result A) :
  (∀ e, allowed e → allowed' e) → raises_only allowed r → raises_only allowed' r.
Proof. destruct r; simpl; eauto. Qed.

Lemma getitem_faults obj key : raises_only navigation_fault (getitem obj key).
Proof. destruct obj; simpl; try done. by destruct (dict_lookup key fields). Qed.

Lemma get_method_faults obj key fallback :
  raises_only navigation_fault (get_method obj key fallback).
Proof. by destruct obj. Qed.

Lemma iterate_faults obj : raises_only navigation_fault (iterate obj).
Proof. by destruct obj. Qed.

Lemma append_nil_r s : s ++ "" = s.
Proof. induction s as [| c s IH]; [done |]. by rewrite append_cons, IH. Qed.

Section ResolverMore.
Context (py : Builtins).

Lemma lower_method_faults v : raises_only navigation_fault (lower_method py v).
Proof. by destruct v. Qed.

Lemma exact_scan_faults q locations :
  raises_only navigation_fault (exact_scan py q locations).
Proof.
  induction locations as [| location rest IH]; [done |]. cbn [exact_scan].
  apply raises_only_bind; [apply getitem_faults |]. intros name _.
  apply raises_only_bind; [apply lower_method_faults |]. intros lowered _.
  destruct (String.eqb _ _); [| exact IH].
  apply raises_only_fmap, getitem_faults.
Qed.

Lemma partial_scan_faults q locations :
  raises_only navigation_fault (partial_scan py q locations).
Proof.
  induction locations as [| location rest IH]; [done |]. cbn [partial_scan].
  apply raises_only_bind; [apply getitem_faults |]. intros name _.
  apply raises_only_bind; [apply lower_method_faults |]. intros lowered _.
  destruct (str_contains _ _); [| exact IH].
  apply raises_only_fmap, getitem_faults.
Qed.

Lemma lookup_body_faults file q :
  raises_only (λ e, lookup_fault e ∨ file = FileFault e) (lookup_body py file q).
Proof.
  assert (Hnav : ∀ A (r : result A),
            raises_only navigation_fault r →
            raises_only (λ e, lookup_fault e ∨ file = FileFault e) r).
  { intros A r. apply raises_only_weaken. intros []; simpl; tauto. }
  unfold lookup_body.
  apply raises_only_bind; [destruct file; simpl; tauto |]. intros data _.
  apply raises_only_bind; [apply Hnav, get_method_faults |]. intros section _.
  apply raises_only_bind; [apply Hnav, get_method_faults |]. intros listing _.
  apply raises_only_bind; [apply Hnav, iterate_faults |]. intros locations _.
  apply raises_only_bind; [apply Hnav, exact_scan_faults |]. intros [station |] _; [done |].
  apply raises_only_bind; [apply Hnav, partial_scan_faults | done].
Qed.

(** X5.  An exception that leaves the resolver is never one its handler
    names ([FileNotFoundError], [JSONDecodeError], [KeyError]); it is
    either the exception that opening or parsing the file raised, or a
    [TypeError] or [AttributeError] of the resolver's own steps over the
    document.  An exception of opening or parsing that the handler does
    not name -- a [UnicodeDecodeError], say -- does leave it.  The resolver
    prints at most one line, and only on its way to returning [None]. *)
Theorem lookup_outcomes file q :
  match lookup_station_id py file q with
  | (log, Ok station) => log = [] ∨ (station = VNone ∧ ∃ line, log = [Printed line])
  | (log, Raise e) =>
      log = [] ∧ ¬ lookup_catches e ∧ (uncaught_lookup_fault e ∨ file = FileFault e)
  end ∧
  (∀ e, ¬ lookup_catches e → lookup_station_id py (FileFault e) q = ([], Raise e)).
Proof.
  split.
  - unfold lookup_station_id, uncaught_lookup_fault.
    pose proof (lookup_body_faults file q) as Hfaults.
    destruct (lookup_body py file q) as [station | []]; simpl in Hfaults; eauto;
      (split; [done |]); (split; [tauto |]);
      destruct Hfaults as [Hfault | Hfile]; try done; tauto.
  - intros e He. unfold lookup_station_id, lookup_body. simpl.
    destruct e; simpl in He; tauto.
Qed.

Lemma exact_scan_lower q q' locations :
  str_lower py q = str_lower py q' → exact_scan py q locations = exact_scan py q' locations.
Proof.
  intros Hlower. induction locations as [| location rest IH]; [done |].
  cbn [exact_scan]. by rewrite Hlower, IH.
Qed.

Lemma partial_scan_lower q q' locations :
  str_lower py q = str_lower py q' →
  partial_scan py q locations = partial_scan py q' locations.
Proof.
  intros Hlower. induction locations as [| location rest IH]; [done |].
  cbn [partial_scan]. by rewrite Hlower, IH.
Qed.

(** X6.  The resolver sees the query through [lower] only: two queries
    with the same lowercase form resolve alike over every file, print
    included. *)
Theorem lookup_ignores_case file q q' :
  str_lower py q = str_lower py q' →
  lookup_station_id py file q = lookup_station_id py file q'.
Proof.
  intros Hlower. unfold lookup_station_id, lookup_body.
  destruct (load_stations file) as [data |]; [| done]. simpl.
  destruct (get_method data "Locations" (VDict [])) as [section |]; [| done]. simpl.
  destruct (get_method section "Location" (VList [])) as [listing |]; [| done]. simpl.
  destruct (iterate listing) as [locations |]; [| done]. simpl.
  by rewrite (exact_scan_lower q q' locations Hlower),
             (partial_scan_lower q q' locations Hlower).
Qed.
End ResolverMore.

(** A [stations.json] whose bytes are not UTF-8. *)
Lemma lookup_outcomes_witness :
  lookup_station_id ascii_py
    (FileFault (UnicodeDecodeError "'utf-8' codec can't decode byte 0xff in position 0: invalid start byte"))
    "cardinham"
  = ([], Raise (UnicodeDecodeError "'utf-8' codec can't decode byte 0xff in position 0: invalid start byte")).
Proof.
  apply (proj2 (lookup_outcomes ascii_py FileMissing "cardinham")). by intros [].
Defined.

Lemma lookup_ignores_case_witness :
  lookup_station_id ascii_py cardinham_directory "CARDINHAM"
  = lookup_station_id ascii_py cardinham_directory "cardinham".
Proof. by apply lookup_ignores_case. Defined.

Section ResolverMatches.
Context (py : Builtins).

Lemma exact_is_partial q location : exact_match py q location → partial_match py q location.
Proof.
  intros (name & Hname & Heq). exists name, "", "".
  by rewrite append_nil, append_nil_r.
Qed.

Lemma exact_scan_result q locations :
  Forall (λ l, is_Some (name_of l) ∧ is_Some (id_of l)) locations →
  (exact_scan py q locations = Ok None ∧ Forall (λ l, ¬ exact_match py q l) locations) ∨
  (∃ location station,
      In location locations ∧ exact_match py q location ∧
      id_of location = Some station ∧ exact_scan py q locations = Ok (Some station)).
Proof.
  induction 1 as [| location rest [[name Hname] [station Hid]] _ IH]; [by left |].
  rewrite (exact_scan_cons py _ _ _ _ Hname).
  destruct (String.eqb _ _) eqn:Heq.
  - right. exists location, station.
    split; [by left |]. split; [by apply (exact_match_eqb py _ _ _ Hname) |].
    by rewrite (getitem_id _ _ Hid).
  - destruct IH as [[Hscan Hnone] | (location' & station' & Hin & Hmatch & Hid' & Hscan)].
    + left. split; [done |]. constructor; [| done].
      intros Hmatch. apply (exact_match_eqb py _ _ _ Hname) in Hmatch. congruence.
    + right. exists location', station'. split; [by right | done].
Qed.

Lemma partial_scan_result q locations :
  Forall (λ l, is_Some (name_of l) ∧ is_Some (id_of l)) locations →
  (partial_scan py q locations = Ok None ∧ Forall (λ l, ¬ partial_match py q l) locations) ∨
  (∃ location station,
      In location locations ∧ partial_match py q location ∧
      id_of location = Some station ∧ partial_scan py q locations = Ok (Some station)).
Proof.
  induction 1 as [| location rest [[name Hname] [station Hid]] _ IH]; [by left |].
  rewrite (partial_scan_cons py _ _ _ _ Hname).
  destruct (str_contains _ _) eqn:Heq.
  - right. exists location, station.
    split; [by left |]. split; [by apply (partial_match_contains py _ _ _ Hname) |].
    by rewrite (getitem_id _ _ Hid).
  - destruct IH as [[Hscan Hnone] | (location' & station' & Hin & Hmatch & Hid' & Hscan)].
    + left. split; [done |]. constructor; [| done].
      intros Hmatch. apply (partial_match_contains py _ _ _ Hname) in Hmatch. congruence.
    + right. exists location', station'. split; [by right | done].
Qed.

(** X7.  Over a directory whose records have a name and an id, what the
    resolver returns is the id of a record whose name contains the query,
    case-insensitively; it falls back to [None] exactly when no record's
    name does. *)
Theorem lookup_sound_and_complete data locations q :
  is_directory data locations →
  Forall (λ l, is_Some (name_of l) ∧ is_Some (id_of l)) locations →
  (∃ location station,
      In location locations ∧ partial_match py q location ∧
      id_of location = Some station ∧
      lookup_station_id py (FileJson data) q = ([], Ok station)) ∨
  (Forall (λ l, ¬ partial_match py q l) locations ∧
   lookup_station_id py (FileJson data) q = ([], Ok VNone)).
Proof.
  intros Hdir Hwf. unfold lookup_station_id.
  rewrite (lookup_body_directory py _ _ _ Hdir).
  destruct (exact_scan_result q locations Hwf)
    as [[Hscan _] | (location & station & Hin & Hmatch & Hid & Hscan)]; rewrite Hscan; simpl.
  - destruct (partial_scan_result q locations Hwf)
      as [[Hscan' Hnone] | (location & station & Hin & Hmatch & Hid & Hscan')];
      rewrite Hscan'; simpl.
    + by right.
    + left. by exists location, station.
  - left. exists location, station. eauto using exact_is_partial.
Qed.

(** X8.  Documents of another shape are not caught by the handler: a
    top level or a ["Locations"] that is no object raises
    [AttributeError]; a ["Location"] that cannot be iterated, or that is a
    single object in place of a list, raises [TypeError], and so does a
    record that is no object when the scan reaches it first. *)
Theorem lookup_wrong_shapes q :
  (∀ data, (∀ fields, data ≠ VDict fields) →
     lookup_station_id py (FileJson data) q = ([], Raise AttributeError)) ∧
  (∀ top section,
     dict_lookup "Locations" top = Some section →
     (∀ fields, section ≠ VDict fields) →
     lookup_station_id py (FileJson (VDict top)) q = ([], Raise AttributeError)) ∧
  (∀ top inner listing,
     dict_lookup "Locations" top = Some (VDict inner) →
     dict_lookup "Location" inner = Some listing →
     (∀ items, listing ≠ VList items) → listing ≠ VDict [] → listing ≠ VStr "" →
     lookup_station_id py (FileJson (VDict top)) q = ([], Raise TypeError)) ∧
  (∀ data location rest,
     is_directory data (location :: rest) →
     (∀ fields, location ≠ VDict fields) →
     lookup_station_id py (FileJson data) q = ([], Raise TypeError)).
Proof.
  split; [| split; [| split]].
  - intros data Hshape. unfold lookup_station_id, lookup_body.
    destruct data; try done. by destruct (Hshape fields).
  - intros top section Htop Hshape. unfold lookup_station_id, lookup_body. simpl.
    rewrite Htop. simpl. destruct section; try done. by destruct (Hshape fields).
  - intros top inner listing Htop Hinner Hlist Hdict Hstr.
    unfold lookup_station_id, lookup_body. simpl. rewrite Htop. simpl. rewrite Hinner. simpl.
    destruct listing as [| | | | s | items | fields]; try done.
    + destruct s; [done | reflexivity].
    + by destruct (Hlist items).
    + destruct fields as [| [k v] fields]; [done | reflexivity].
  - intros data location rest Hdir Hshape. unfold lookup_station_id.
    rewrite (lookup_body_directory py _ _ _ Hdir).
    destruct location; try done. by destruct (Hshape fields).
Qed.
End ResolverMatches.

(** The directory of two stations asked for ["moor"] and for ["exeter"]. *)
Lemma lookup_sound_and_complete_witness :
  ((∃ location found,
       In location [station "Cardinham Moor" "1"; station "CARDINHAM" "3823"] ∧
       partial_match ascii_py "moor" location ∧
       id_of location = Some found ∧
       lookup_station_id ascii_py cardinham_directory "moor" = ([], Ok found)) ∨
   (Forall (λ l, ¬ partial_match ascii_py "moor" l)
       [station "Cardinham Moor" "1"; station "CARDINHAM" "3823"] ∧
    lookup_station_id ascii_py cardinham_directory "moor" = ([], Ok VNone))).
Proof.
  apply (lookup_sound_and_complete ascii_py
           (VDict [("Locations", VDict [("Location",
              VList [station "Cardinham Moor" "1"; station "CARDINHAM" "3823"])])])).
  - by eexists _, _.
  - repeat constructor; by eexists.
Defined.

(** A top-level array, and a directory whose single station is sent as an
    object. *)
Lemma lookup_wrong_shapes_witness :
  lookup_station_id ascii_py (FileJson (VList [])) "cardinham" = ([], Raise AttributeError) ∧
  lookup_station_id ascii_py
    (FileJson (VDict [("Locations", VDict [("Location", station "CARDINHAM" "3823")])]))
    "cardinham"
  = ([], Raise TypeError).
Proof.
  destruct (lookup_wrong_shapes ascii_py "cardinham") as (Htop & _ & Hlisting & _).
  split.
  - by apply Htop.
  - by apply (Hlisting _ [("Location", station "CARDINHAM" "3823")]
                (station "CARDINHAM" "3823")).
Defined.

(** ** API client *)

Section ClientMore.
Context (MET_OFFICE_API_KEY : string).

Lemma request_cases (net : network) url params :
  (∃ r data,
      net url (request_params MET_OFFICE_API_KEY params) = Responded r ∧
      is_success r = true ∧ json r = inr data ∧
      make_met_office_request MET_OFFICE_API_KEY net url params
      = ([HttpGet url (request_params MET_OFFICE_API_KEY params) 30], Ok data)) ∨
  (∃ line,
      make_met_office_request MET_OFFICE_API_KEY net url params
      = ([HttpGet url (request_params MET_OFFICE_API_KEY params) 30; Printed line],
         Ok VNone)) ∨
  (∃ e,
      net url (request_params MET_OFFICE_API_KEY params) = Aborted e ∧
      make_met_office_request MET_OFFICE_API_KEY net url params
      = ([HttpGet url (request_params MET_OFFICE_API_KEY params) 30], Raise e)).
Proof.
  unfold make_met_office_request, request_body.
  destruct (net url _) as [msg | e | r] eqn:Hnet;
    [right; left; by eexists | right; right; by eexists |].
  destruct (is_success r) eqn:Hstatus; [| right; left; by eexists].
  destruct (json r) as [msg | data] eqn:Hjson; [right; left; by eexists |].
  left. by exists r, data.
Qed.

(** X10.  Adding the key is idempotent: the parameters one call leaves
    behind pass through a second call unchanged, whatever key is
    configured then. *)
Theorem request_params_idempotent other params :
  request_params other (Some (request_params MET_OFFICE_API_KEY params))
  = request_params MET_OFFICE_API_KEY params.
Proof.
  unfold request_params at 1. unfold setdefault.
  simpl. set (sent := request_params MET_OFFICE_API_KEY params).
  assert (Hkey : is_Some (sent !! "key")).
  { unfold sent, request_params, setdefault.
    destruct (default ∅ params !! "key") as [v |] eqn:Hkey; [by rewrite Hkey |].
    rewrite lookup_insert_eq. by eexists. }
  destruct Hkey as [v Hv]. by rewrite Hv.
Qed.
End ClientMore.

(** ** Observation formatter *)

Lemma format_02d_negative n : n < 0 → format_02d n = "-" ++ string_of_Z (- n).
Proof.
  intros Hn. unfold format_02d. destruct (Z.ltb_spec n 0); [| lia].
  by rewrite Z.abs_neq by lia.
Qed.

Lemma has_char_without c s : has_char c (without_char c s) = false.
Proof.
  induction s as [| d s IH]; [done |]. cbn [without_char].
  destruct (Ascii.eqb d c) eqn:Hd; [done |]. cbn [has_char]. by rewrite Hd, IH.
Qed.

Lemma without_absent_char c s : has_char c s = false → without_char c s = s.
Proof.
  induction s as [| d s IH]; [done |]. cbn [has_char without_char].
  destruct (Ascii.eqb d c); [done |]. intros H. by rewrite IH.
Qed.

Section FormatterMore.
Context (py : Builtins).

Lemma py_int_faults v : raises_only formatter_fault (py_int py v).
Proof.
  destruct v as [| b | n | [z | inf | | s m e] | s | items | fields]; simpl; try done.
  by destruct (int_of_str py s).
Qed.

Lemma describe_faults code : raises_only formatter_fault (get_weather_description py code).
Proof.
  unfold get_weather_description.
  pose proof (py_int_faults code) as Hint.
  by destruct (py_int py code) as [n | []].
Qed.

Lemma navigation_is_formatter_fault {A} (r : result A) :
  raises_only navigation_fault r → raises_only formatter_fault r.
Proof. apply raises_only_weaken. by intros []. Qed.

Lemma format_rep_faults rep : raises_only formatter_fault (format_rep py rep).
Proof.
  unfold format_rep.
  apply raises_only_bind; [apply navigation_is_formatter_fault, getitem_faults |].
  intros minutes_field _.
  apply raises_only_bind; [apply py_int_faults |]. intros time_minutes _.
  repeat (apply raises_only_bind;
            [apply navigation_is_formatter_fault, get_method_faults | intros ? _]).
  apply raises_only_bind; [apply describe_faults | done].
Qed.

Lemma format_reps_faults reps observations :
  raises_only formatter_fault (format_reps py reps observations).
Proof.
  revert observations. induction reps as [| rep rest IH]; [done |]. intros observations.
  cbn [format_reps]. apply raises_only_bind; [apply format_rep_faults |].
  intros observation _. apply IH.
Qed.

Lemma replace_method_faults v old new :
  raises_only navigation_fault (replace_method v old new).
Proof. by destruct v. Qed.

Lemma format_periods_faults periods observations :
  raises_only formatter_fault (format_periods py periods observations).
Proof.
  revert observations. induction periods as [| period rest IH]; [done |].
  intros observations. cbn [format_periods].
  apply raises_only_bind; [apply navigation_is_formatter_fault, getitem_faults |].
  intros date _.
  apply raises_only_bind; [apply navigation_is_formatter_fault, replace_method_faults |].
  intros date_formatted _.
  apply raises_only_bind.
  { apply raises_only_bind; [apply navigation_is_formatter_fault, getitem_faults |].
    intros reps_obj _. apply navigation_is_formatter_fault, iterate_faults. }
  intros reps _.
  apply raises_only_bind; [apply format_reps_faults |]. intros observations' _. apply IH.
Qed.

Lemma format_observations_faults data :
  raises_only formatter_fault (format_observations py data).
Proof.
  unfold format_observations.
  apply raises_only_bind; [apply navigation_is_formatter_fault, getitem_faults |].
  intros site_rep _.
  apply raises_only_bind.
  { apply raises_only_bind; [apply navigation_is_formatter_fault, getitem_faults |].
    intros dv _. apply navigation_is_formatter_fault, getitem_faults. }
  intros location _.
  apply raises_only_bind; [apply navigation_is_formatter_fault, getitem_faults |].
  intros location_name _.
  apply raises_only_bind.
  { apply raises_only_bind; [apply navigation_is_formatter_fault, getitem_faults |].
    intros periods_obj _. apply navigation_is_formatter_fault, iterate_faults. }
  intros periods _.
  apply raises_only_bind; [apply format_periods_faults | done].
Qed.

(** The inner loop over reports that all format. *)
Lemma format_reps_all reps blocks observations :
  Forall2 (λ rep block, format_rep py rep = Ok block) reps blocks →
  format_reps py reps observations = Ok (observations ++ blocks)%list.
Proof.
  intros Hall. revert observations.
  induction Hall as [| rep block reps blocks Hrep _ IH]; intros observations.
  - by rewrite app_nil_r.
  - cbn [format_reps]. rewrite Hrep. simpl. rewrite IH. by rewrite <- app_assoc.
Qed.

(** The inner loop stops at the first report that does not. *)
Lemma format_reps_first_fault before blocks bad after e observations :
  Forall2 (λ rep block, format_rep py rep = Ok block) before blocks →
  format_rep py bad = Raise e →
  format_reps py (before ++ bad :: after)%list observations = Raise e.
Proof.
  intros Hall Hbad. revert observations.
  induction Hall as [| rep block reps blocks' Hrep _ IH]; intros observations.
  - cbn [app format_reps]. by rewrite Hbad.
  - cbn [app format_reps]. rewrite Hrep. simpl. apply IH.
Qed.

Lemma format_period_shown period view rest observations :
  period_shows py period view →
  format_periods py (period :: rest) observations
  = format_periods py rest (observations ++ view_lines view)%list.
Proof.
  intros (fields & reps_obj & reps & -> & Hdate & Hrep & Hiter & Hblocks).
  cbn [format_periods getitem]. rewrite Hdate, Hrep.
  cbn [mbind result_bind replace_method]. rewrite Hiter, without_char_replace.
  cbn [mbind result_bind]. rewrite (format_reps_all _ _ _ Hblocks).
  cbn [mbind result_bind]. unfold view_lines. by rewrite <- app_assoc.
Qed.

Lemma format_periods_all periods views observations :
  Forall2 (period_shows py) periods views →
  format_periods py periods observations
  = Ok (observations ++ concat (map view_lines views))%list.
Proof.
  intros Hall. revert observations.
  induction Hall as [| period view periods views Hperiod _ IH]; intros observations.
  - by rewrite app_nil_r.
  - rewrite (format_period_shown _ _ _ _ Hperiod), IH. simpl. by rewrite <- app_assoc.
Qed.

Lemma format_site_report data name periods :
  is_site_report data name periods →
  format_observations py data
  = (observations ←
       format_periods py periods ["Hourly observations for " ++ py_str py name ++ ":"];
     Ok (join_lines observations)).
Proof.
  intros (top & site & dv & location & periods_obj & -> & Hsite & Hdv & Hloc & Hname
          & Hperiods & Hiter).
  unfold format_observations. cbn [getitem]. rewrite Hsite. simpl. rewrite Hdv. simpl.
  rewrite Hloc. simpl. rewrite Hname, Hperiods. simpl. by rewrite Hiter.
Qed.

Lemma format_report_structure data name periods views :
  is_site_report data name periods →
  Forall2 (period_shows py) periods views →
  format_observations py data
  = Ok (join_lines (("Hourly observations for " ++ py_str py name ++ ":")
                      :: concat (map view_lines views))).
Proof.
  intros Hdata Hperiods.
  by rewrite (format_site_report _ _ _ Hdata), (format_periods_all _ _ _ Hperiods).
Qed.

Lemma format_first_fault data name shown_periods views fields date reps_obj
    shown_reps blocks bad later_reps later_periods e :
  is_site_report data name (shown_periods ++ VDict fields :: later_periods)%list →
  Forall2 (period_shows py) shown_periods views →
  dict_lookup "value" fields = Some (VStr date) →
  dict_lookup "Rep" fields = Some reps_obj →
  iterate reps_obj = Ok (shown_reps ++ bad :: later_reps)%list →
  Forall2 (λ rep block, format_rep py rep = Ok block) shown_reps blocks →
  format_rep py bad = Raise e →
  format_observations py data = Raise e.
Proof.
  intros Hdata Hshown Hdate Hrep Hiter Hblocks Hbad.
  rewrite (format_site_report _ _ _ Hdata).
  assert (Hloop : ∀ observations,
            format_periods py (shown_periods ++ VDict fields :: later_periods)%list observations
            = Raise e).
  { clear Hdata. intros observations. revert observations.
    induction Hshown as [| period view periods views' Hperiod _ IH]; intros observations.
    - cbn [app format_periods getitem]. rewrite Hdate, Hrep.
      cbn [mbind result_bind replace_method]. rewrite Hiter. cbn [mbind result_bind].
      by rewrite (format_reps_first_fault _ _ _ _ _ _ Hblocks Hbad).
    - cbn [app]. rewrite (format_period_shown _ _ _ _ Hperiod). apply IH. }
  by rewrite Hloop.
Qed.

(** X11.  The hour part of the time is the [02d] format of the floored
    quotient and the minute part is always the two digits of the remainder,
    whatever the sign or size of the time field; a negative field shows a
    minus sign before the hours. *)
Theorem time_text_edges :
  (∀ t, time_text t = format_02d (t / 60) ++ ":" ++ two_digits (t mod 60)) ∧
  (∀ t, t < 0 →
     time_text t = "-" ++ string_of_Z (- (t / 60)) ++ ":" ++ two_digits (t mod 60)).
Proof.
  assert (Hminutes : ∀ t, format_02d (t mod 60) = two_digits (t mod 60)).
  { intros t. apply format_02d_two_digits. pose proof (Z.mod_pos_bound t 60). lia. }
  split.
  - intros t. unfold time_text. by rewrite Hminutes.
  - intros t Ht. unfold time_text. rewrite Hminutes.
    rewrite format_02d_negative; [| apply Z.div_lt_upper_bound; lia].
    generalize (string_of_Z (- (t / 60))). intros digits.
    clear. induction digits; reflexivity.
Qed.

(** X12.  The date of a header never contains a ["Z"]; a date without one
    is shown as it is, cleaning twice changes nothing more, and a date that
    is not a str has no [replace] to call. *)
Theorem cleaned_date date :
  replace_method (VStr date) "Z" "" = Ok (without_char "Z" date) ∧
  has_char "Z" (without_char "Z" date) = false ∧
  (has_char "Z" date = false → without_char "Z" date = date) ∧
  without_char "Z" (without_char "Z" date) = without_char "Z" date ∧
  (∀ v, (∀ s, v ≠ VStr s) → replace_method v "Z" "" = Raise AttributeError).
Proof.
  split; [| split; [| split; [| split]]].
  - cbn [replace_method]. by rewrite without_char_replace.
  - apply has_char_without.
  - apply without_absent_char.
  - apply without_absent_char, has_char_without.
  - intros v Hv. destruct v; try done. by destruct (Hv s).
Qed.
End FormatterMore.

(** Midnight minus one minute, and one hundred hours. *)
Lemma time_text_edges_witness :
  time_text (-1) = "-1:59" ∧ time_text 6000 = "100:00".
Proof.
  split.
  - rewrite (proj2 time_text_edges (-1)) by lia. reflexivity.
  - rewrite (proj1 time_text_edges 6000). reflexivity.
Defined.

Lemma cleaned_date_witness :
  without_char "Z" "2025-08-03" = "2025-08-03" ∧
  replace_method (VInt 20250803) "Z" "" = Raise AttributeError.
Proof.
  destruct (cleaned_date "2025-08-03") as (_ & _ & Hsame & _ & Hother).
  split; [by apply Hsame | by apply Hother].
Defined.

(** ** The tool *)

Section ToolMore.
Context (py : Builtins) (MET_OFFICE_API_KEY : string).

Lemma lookup_cases file q :
  (∃ station, lookup_station_id py file q = ([], Ok station)) ∨
  (∃ line, lookup_station_id py file q = ([Printed line], Ok VNone)) ∨
  (∃ e, lookup_station_id py file q = ([], Raise e)).
Proof.
  unfold lookup_station_id.
  destruct (lookup_body py file q) as [station | []]; eauto 6.
Qed.

(** What the handler of the tool makes of the outcome of formatting. *)
Lemma tool_after_fetch file net name data :
  fetches py MET_OFFICE_API_KEY file net name data →
  (get_hourly_observations py MET_OFFICE_API_KEY file net name).2
  = match format_observations py data with
    | Ok report => Ok report
    | Raise (KeyError key) => Ok (parse_failure ("'" ++ key ++ "'"))
    | Raise (IndexError msg) | Raise (ValueError msg) | Raise (JSONDecodeError msg)
    | Raise (UnicodeDecodeError msg) => Ok (parse_failure msg)
    | Raise e => Raise e
    end.
Proof.
  intros (log & locid & r & Hlookup & Hlocid & Hnet & Hstatus & Hjson & Hdata).
  unfold get_hourly_observations. rewrite Hlookup, Hlocid. cbn [negb].
  unfold make_met_office_request, request_body. rewrite Hnet, Hstatus, Hjson.
  by rewrite Hdata.
Qed.

(** X13.  When the resolver returns and the call to the API is not
    aborted, the tool either returns one of four texts -- the not-found
    message for the name, the fetch failure, a parse failure, or the
    report of a truthy payload -- or raises the [TypeError],
    [AttributeError] or [OverflowError] that formatting a truthy payload
    raised; a [KeyError], [IndexError] or [ValueError] of formatting never
    leaves it. *)
Theorem tool_outcomes file (net : network) name log locid :
  lookup_station_id py file name = (log, Ok locid) →
  (∀ e, net (observations_url py locid)
            (request_params MET_OFFICE_API_KEY (Some observations_params)) ≠ Aborted e) →
  match (get_hourly_observations py MET_OFFICE_API_KEY file net name).2 with
  | Ok text =>
      text = not_found name ∨ text = fetch_failure ∨
      (∃ problem, text = parse_failure problem) ∨
      (∃ data, truthy data = true ∧ format_observations py data = Ok text)
  | Raise e =>
      uncaught_fault e ∧
      ∃ data, truthy data = true ∧ format_observations py data = Raise e
  end.
Proof.
  intros Hlookup Hnet.
  unfold get_hourly_observations, uncaught_fault. rewrite Hlookup.
  destruct (truthy locid); simpl; [| tauto].
  destruct (request_cases MET_OFFICE_API_KEY net (observations_url py locid)
              (Some observations_params))
    as [(r & data & _ & _ & _ & ->) | [(line & ->) | (e & Hab & _)]]; simpl;
    [| tauto | by destruct (Hnet e)].
  destruct (truthy data) eqn:Hdata; simpl; [| tauto].
  pose proof (format_observations_faults py data) as Hfaults.
  destruct (format_observations py data) as [report | []] eqn:Hformat; simpl in Hfaults;
    try done; eauto 8.
Qed.

(** X14.  A name that does not resolve to a truthy id -- no match, an id
    that is empty, zero or null, a missing or unreadable directory --
    gets the not-found message with the name as given, and no request is
    sent. *)
Theorem unresolved_name_sends_nothing (net : network) name :
  (∀ file log locid,
      lookup_station_id py file name = (log, Ok locid) →
      truthy locid = false →
      get_hourly_observations py MET_OFFICE_API_KEY file net name
      = (log, Ok (not_found name)) ∧
      gets log = []) ∧
  (get_hourly_observations py MET_OFFICE_API_KEY FileMissing net name).2
  = Ok (not_found name) ∧
  (∀ msg, (get_hourly_observations py MET_OFFICE_API_KEY (FileMalformed msg) net name).2
          = Ok (not_found name)) ∧
  truthy (VStr "") = false ∧ truthy (VInt 0) = false ∧ truthy VNone = false.
Proof.
  split; [| done].
  intros file log locid Hlookup Hlocid.
  unfold get_hourly_observations. rewrite Hlookup, Hlocid. split; [done |].
  destruct (lookup_cases file name)
    as [[station Heq] | [[line Heq] | (e & Heq)]]; rewrite Heq in Hlookup;
    by injection Hlookup as <- _.
Qed.

(** X15.  For a server that started, the key is the non-empty value of
    the environment variable, and a name that resolves to a truthy id
    makes the tool send exactly one request: a GET of the base URL
    followed by [/wxobs/all/json/] and the id, with the parameters
    [res=hourly] and that key, and the 30-second timeout. *)
Theorem resolved_name_sends_one_request getenv file (net : network) name log locid :
  load_api_key getenv = Ok MET_OFFICE_API_KEY →
  lookup_station_id py file name = (log, Ok locid) →
  truthy locid = true →
  getenv = Some MET_OFFICE_API_KEY ∧ MET_OFFICE_API_KEY ≠ "" ∧
  gets (get_hourly_observations py MET_OFFICE_API_KEY file net name).1
  = [HttpGet (MET_OFFICE_API_BASE ++ "/wxobs/all/json/" ++ py_str py locid)
       (<["key" := VStr MET_OFFICE_API_KEY]> {["res" := VStr "hourly"]}) 30].
Proof.
  intros Hkey Hlookup Hlocid.
  assert (Henv : getenv = Some MET_OFFICE_API_KEY ∧ MET_OFFICE_API_KEY ≠ "").
  { unfold load_api_key in Hkey. destruct getenv as [key |]; [| done].
    destruct (String.eqb_spec key ""); [done |]. by injection Hkey as ->. }
  destruct Henv as [-> Hne]. split; [done |]. split; [done |].
  assert (Hlog : gets log = []).
  { destruct (lookup_cases file name)
      as [[station Heq] | [[line Heq] | (e & Heq)]]; rewrite Heq in Hlookup;
      by injection Hlookup as <- _. }
  unfold get_hourly_observations. rewrite Hlookup, Hlocid. cbn [negb].
  destruct (request_cases MET_OFFICE_API_KEY net (observations_url py locid)
              (Some observations_params))
    as [(r & data & _ & _ & _ & ->) | [(line & ->) | (e & _ & ->)]].
  - destruct (truthy data); simpl; unfold gets in *; rewrite List.filter_app, Hlog; done.
  - simpl. unfold gets in *. rewrite List.filter_app, Hlog. done.
  - simpl. unfold gets in *. rewrite List.filter_app, Hlog. done.
Qed.

(** X16.  Once the payload is fetched, the report of a well-formed one is
    its title line, naming the location as the payload does, followed
    period by period, in the payload's order, by the header of the period
    and the blocks of its reports, all joined by newlines. *)
Theorem report_structure file net name data title periods views :
  fetches py MET_OFFICE_API_KEY file net name data →
  is_site_report data title periods →
  Forall2 (period_shows py) periods views →
  (get_hourly_observations py MET_OFFICE_API_KEY file net name).2
  = Ok (join_lines (("Hourly observations for " ++ py_str py title ++ ":")
                      :: concat (map view_lines views))).
Proof.
  intros Hfetch Hdata Hperiods.
  by rewrite (tool_after_fetch _ _ _ _ Hfetch),
             (format_report_structure py _ _ _ _ Hdata Hperiods).
Qed.

(** X17.  Formatting is all or nothing: when the periods before one and
    the reports before one of its reports all format, and that report
    raises, nothing of the report is returned, whatever follows.  A
    [KeyError] or [ValueError] of that report becomes the parse failure
    text; any other exception leaves the tool. *)
Theorem first_fault_aborts file net name data title shown_periods views fields date
    reps_obj shown_reps blocks bad later_reps later_periods e :
  fetches py MET_OFFICE_API_KEY file net name data →
  is_site_report data title (shown_periods ++ VDict fields :: later_periods)%list →
  Forall2 (period_shows py) shown_periods views →
  dict_lookup "value" fields = Some (VStr date) →
  dict_lookup "Rep" fields = Some reps_obj →
  iterate reps_obj = Ok (shown_reps ++ bad :: later_reps)%list →
  Forall2 (λ rep block, format_rep py rep = Ok block) shown_reps blocks →
  format_rep py bad = Raise e →
  (get_hourly_observations py MET_OFFICE_API_KEY file net name).2
  = match e with
    | KeyError key => Ok (parse_failure ("'" ++ key ++ "'"))
    | IndexError msg | ValueError msg | JSONDecodeError msg => Ok (parse_failure msg)
    | _ => Raise e
    end.
Proof.
  intros Hfetch Hdata Hshown Hdate Hrep Hiter Hblocks Hbad.
  rewrite (tool_after_fetch _ _ _ _ Hfetch),
          (format_first_fault py _ _ _ _ _ _ _ _ _ _ _ _ _
             Hdata Hshown Hdate Hrep Hiter Hblocks Hbad).
  pose proof (format_rep_faults py bad) as Hfault. rewrite Hbad in Hfault.
  by destruct e.
Qed.
End ToolMore.

(** The payload with a single period object: the resolver returns, the
    API answers, and the [TypeError] is one of formatting. *)
Lemma tool_outcomes_witness :
  uncaught_fault TypeError ∧
  ∃ data, truthy data = true ∧ format_observations ascii_py data = Raise TypeError.
Proof.
  exact (tool_outcomes ascii_py "key" cardinham_directory (answering single_period_payload)
           "cardinham" [] (VStr "3823") eq_refl ltac:(discriminate)).
Defined.

(** A name that no station carries. *)
Lemma unresolved_name_sends_nothing_witness :
  get_hourly_observations ascii_py "key" cardinham_directory (answering one_day_payload)
    "exeter"
  = ([], Ok (not_found "exeter")).
Proof.
  apply (proj1 (unresolved_name_sends_nothing ascii_py "key" (answering one_day_payload)
                  "exeter") cardinham_directory [] VNone); reflexivity.
Defined.

(** The request for station 3823. *)
Lemma resolved_name_sends_one_request_witness :
  gets (get_hourly_observations ascii_py "secret" cardinham_directory
          (answering one_day_payload) "cardinham").1
  = [HttpGet "http://datapoint.metoffice.gov.uk/public/data/val/wxobs/all/json/3823"
       (<["key" := VStr "secret"]> {["res" := VStr "hourly"]}) 30].
Proof.
  apply (resolved_name_sends_one_request ascii_py "secret" (Some "secret")
           cardinham_directory (answering one_day_payload) "cardinham" [] (VStr "3823"));
    reflexivity.
Defined.

Lemma fetches_answer data :
  truthy data = true →
  fetches ascii_py "key" cardinham_directory (answering data) "cardinham" data.
Proof.
  intros Hdata.
  exists [], (VStr "3823"), {| status_code := 200; text := ""; json := inr data |}.
  by repeat split.
Qed.

Lemma half_past_one_block :
  format_rep ascii_py (VDict half_past_one)
  = Ok (observation_text "01:30" "15.2" "Cloudy" "N/A" "1012" "N/A" "N/A" "N/A" "N/A" "N/A").
Proof. reflexivity. Qed.

(** The day of one report, and the same day with a second report that
    has no time field. *)
Lemma report_structure_witness :
  (get_hourly_observations ascii_py "key" cardinham_directory (answering one_day_payload)
     "cardinham").2
  = Ok (join_lines
          [ "Hourly observations for CARDINHAM:";
            section_header "2025-08-03";
            observation_text "01:30" "15.2" "Cloudy" "N/A" "1012" "N/A" "N/A" "N/A" "N/A" "N/A" ]).
Proof.
  apply (report_structure ascii_py "key" cardinham_directory (answering one_day_payload)
           "cardinham" one_day_payload (VStr "CARDINHAM")
           [day "2025-08-03Z" (VList [VDict half_past_one])]
           [ {| view_date := "2025-08-03Z";
                view_blocks := [observation_text "01:30" "15.2" "Cloudy" "N/A" "1012"
                                  "N/A" "N/A" "N/A" "N/A" "N/A"] |} ]).
  - by apply fetches_answer.
  - by eexists _, _, _, _, _.
  - constructor; [| constructor].
    eexists _, _, _. repeat split; try reflexivity.
    constructor; [apply half_past_one_block | constructor].
Defined.

Lemma first_fault_aborts_witness :
  (get_hourly_observations ascii_py "key" cardinham_directory
     (answering (site_report "CARDINHAM"
        (VList [day "2025-08-03Z" (VList [VDict half_past_one; VDict [("T", VStr "15.0")]])])))
     "cardinham").2
  = Ok (parse_failure "'$'").
Proof.
  apply (first_fault_aborts ascii_py "key" cardinham_directory
           (answering (site_report "CARDINHAM"
              (VList [day "2025-08-03Z"
                        (VList [VDict half_past_one; VDict [("T", VStr "15.0")]])])))
           "cardinham"
           (site_report "CARDINHAM"
              (VList [day "2025-08-03Z"
                        (VList [VDict half_past_one; VDict [("T", VStr "15.0")]])]))
           (VStr "CARDINHAM") [] []
           [("type", VStr "Day"); ("value", VStr "2025-08-03Z");
            ("Rep", VList [VDict half_past_one; VDict [("T", VStr "15.0")]])]
           "2025-08-03Z" (VList [VDict half_past_one; VDict [("T", VStr "15.0")]])
           [VDict half_past_one]
           [observation_text "01:30" "15.2" "Cloudy" "N/A" "1012" "N/A" "N/A" "N/A" "N/A" "N/A"]
           (VDict [("T", VStr "15.0")]) [] [] (KeyError "$")).
  - by apply fetches_answer.
  - by eexists _, _, _, _, _.
  - constructor.
  - reflexivity.
  - reflexivity.
  - reflexivity.
  - constructor; [apply half_past_one_block | constructor].
  - reflexivity.
Defined.

Section EmptyQuery.
Context (py : Builtins).

(** X18.  The empty query matches every name as a part: over a directory
    whose records have a name and an id, and none an empty name, it
    resolves to the id of the first record. *)
Theorem empty_query_takes_first data location rest found :
  str_lower py "" = "" →
  is_directory data (location :: rest) →
  Forall (λ l, ∃ name, name_of l = Some name ∧ str_lower py name ≠ "") (location :: rest) →
  id_of location = Some found →
  lookup_station_id py (FileJson data) "" = ([], Ok found).
Proof.
  intros Hlower Hdir Hnames Hid.
  unfold lookup_station_id. rewrite (lookup_body_directory py _ _ _ Hdir).
  rewrite exact_scan_miss; cycle 1.
  { eapply Forall_impl; [exact Hnames |]. intros l (name & Hname & _). by exists name. }
  { eapply Forall_impl; [exact Hnames |].
    intros l (name & Hname & Hne) (name' & Hname' & Heq). congruence. }
  cbn [mbind result_bind]. inversion_clear Hnames as [| ? ? (name & Hname & _) _].
  rewrite (partial_scan_hit py "" location rest found); [done | | done].
  exists name, "", (str_lower py name). by rewrite Hlower, !append_nil.
Qed.
End EmptyQuery.

Lemma empty_query_takes_first_witness :
  lookup_station_id ascii_py cardinham_directory "" = ([], Ok (VStr "1")).
Proof.
  apply (empty_query_takes_first ascii_py _ (station "Cardinham Moor" "1")
           [station "CARDINHAM" "3823"]).
  - reflexivity.
  - by eexists _, _.
  - repeat constructor; by eexists.
  - reflexivity.
Defined.
